(** * simple_fansd: a temperature-driven fan controller talking to a BMC

    Shallow embedding of [simple_fansd.py].  The daemon reads the CPU
    temperature once per tick, maps it to a fan speed with a fixed curve and
    programs the BMC through two [ipmitool] invocations; speeding up is
    immediate, slowing down waits for a countdown.

    Python integers are unbounded, hence [Z].  Everything the program does to
    the outside (log records, [ipmitool] invocations) is appended to a trace
    that is threaded through the code by a small state monad. *)

From Stdlib Require Import ZArith List String Ascii Bool Lia.
From Stdlib Require Import DecimalString DecimalPos DecimalZ.
Import ListNotations.
Local Open Scope Z_scope.

(** ** Data *)

(** What [get_temp] returns: a Python [int] (millidegrees), or the float
    [inf] bound to [_MAXIUM_TEMP]. *)
Inductive temperature : Type :=
| Millideg (z : Z)
| PosInf.

(** [temp > c] and [temp < c] for an integer constant [c], as Python
    compares an [int] or [float("inf")] with an [int]. *)
Definition temp_gtb (temp : temperature) (c : Z) : bool :=
  match temp with
  | Millideg z => z >? c
  | PosInf => true
  end.

Definition temp_ltb (temp : temperature) (c : Z) : bool :=
  match temp with
  | Millideg z => z <? c
  | PosInf => false
  end.

(** The two command lines built in [ipmitool_set_fan_speed].
    [enable_manual_speed_set] is ["{IPMI_CMD} raw 0x30 0x30 0x01 0x00"],
    [set_fans_speed v] is ["{IPMI_CMD} raw 0x30 0x30 0x02 0xff 0x{v}"]. *)
Inductive command : Type :=
| enable_manual_speed_set
| set_fans_speed (fan_speed : Z).

(** How [subprocess.check_call] with a timeout ends, as far as
    [_subprocess_call] distinguishes it: normal return, or one of the two
    exceptions it catches.  Any other exception ends the process and with it
    the run. *)
Inductive outcome : Type :=
| Returned
| CalledProcessError
| TimeoutExpired.

Inductive level : Type := INFO | WARNING | ERROR.

(** One constructor per logging call of the source, carrying the values the
    message is formatted from. *)
Inductive message : Type :=
| msg_cmd_failed (cmd : command)
| msg_cmd_timeout (cmd : command)
| msg_invalid_fan_speed (fan_speed : Z)
| msg_failed_manual_mode
| msg_set_fanspeed (fan_speed : Z)
| msg_failed_set_fan_speed (fan_speed : Z)
| msg_exceed_normal_range (temp : temperature)
| msg_not_valid_number (cpu1_temp_raw : string)
| msg_speed_up (temp : temperature) (fan_speed new_fan_speed : Z)
| msg_slow_down (temp : temperature) (fan_speed new_fan_speed : Z).

(** Trace events.  [Log] and [Run] are what the program does; [Enter] is a
    ghost marker recording each call of [ipmitool_set_fan_speed] with the
    argument it received (the source emits nothing at that point). *)
Inductive event : Type :=
| Log (lvl : level) (msg : message)
| Run (cmd : command) (o : outcome)
| Enter (fan_speed : Z).

Definition trace : Type := list event.

(** The [ipmitool] invocations of a trace, oldest first. *)
Fixpoint invocations (tr : trace) : list (command * outcome) :=
  match tr with
  | [] => []
  | Run cmd o :: tr' => (cmd, o) :: invocations tr'
  | _ :: tr' => invocations tr'
  end.

(** The arguments [ipmitool_set_fan_speed] was called with, oldest first. *)
Fixpoint entered (tr : trace) : list Z :=
  match tr with
  | [] => []
  | Enter v :: tr' => v :: entered tr'
  | _ :: tr' => entered tr'
  end.

(** ** The effect monad: state passing over the trace *)

Definition M (A : Type) : Type := trace -> A * trace.

Definition ret {A : Type} (a : A) : M A := fun tr => (a, tr).

Definition bind {A B : Type} (m : M A) (k : A -> M B) : M B :=
  fun tr => let (a, tr') := m tr in k a tr'.

Definition emit (e : event) : M unit := fun tr => (tt, tr ++ [e]).

Definition log (lvl : level) (msg : message) : M unit := emit (Log lvl msg).

Notation "x <- m ;; k" := (bind m (fun x => k))
  (at level 61, m at next level, right associativity).
Notation "m ;; k" := (bind m (fun _ => k))
  (at level 61, right associativity).

(** A stretch of trace holding log records only. *)
Definition quiet (evs : trace) : Prop :=
  invocations evs = [] /\ entered evs = [].

(** A computation that never consults the outside world: whatever the trace
    so far, it returns the same value and appends the same log records. *)
Definition oblivious {A : Type} (m : M A) : Prop :=
  exists a evs, quiet evs /\ forall tr, m tr = (a, tr ++ evs).

Definition level_eqb (l1 l2 : level) : bool :=
  match l1, l2 with
  | INFO, INFO | WARNING, WARNING | ERROR, ERROR => true
  | _, _ => false
  end.

(** The messages a trace logs at a given level, oldest first. *)
Fixpoint logged (lvl : level) (tr : trace) : list message :=
  match tr with
  | [] => []
  | Log l msg :: tr' =>
      if level_eqb l lvl then msg :: logged lvl tr' else logged lvl tr'
  | _ :: tr' => logged lvl tr'
  end.

(** Invocation histories made of complete calls of the BMC operation: a
    refused or timed-out attempt to enable manual mode on its own, or a
    successful one followed at once by a speed command carrying one of the
    speeds of the curve. *)
Inductive paired : list (command * outcome) -> Prop :=
| paired_nil : paired []
| paired_refused (o : outcome) (l : list (command * outcome)) :
    o <> Returned ->
    paired l ->
    paired ((enable_manual_speed_set, o) :: l)
| paired_set (v : Z) (o : outcome) (l : list (command * outcome)) :
    In v [20; 32; 48; 64] ->
    paired l ->
    paired ((enable_manual_speed_set, Returned) :: (set_fans_speed v, o) :: l).

(** ** Stand-ins used to run the model on concrete inputs *)

Definition is_space (c : ascii) : bool :=
  let n := nat_of_ascii c in
  (Nat.eqb n 32 || (Nat.leb 9 n && Nat.leb n 13))%bool.

Fixpoint lstrip (s : string) : string :=
  match s with
  | String c s' => if is_space c then lstrip s' else s
  | EmptyString => EmptyString
  end.

Fixpoint rstrip (s : string) : string :=
  match s with
  | String c s' =>
      match rstrip s' with
      | EmptyString => if is_space c then EmptyString else String c EmptyString
      | r => String c r
      end
  | EmptyString => EmptyString
  end.

(** A decimal reader for plain ASCII text: surrounding white space, an
    optional minus sign, digits.  It stands for Python's [int] wherever the
    model is run on concrete sensor text. *)
Definition decimal_int (s : string) : option Z :=
  option_map Z.of_int (NilZero.int_of_string (rstrip (lstrip s))).

(** A BMC on which every invocation succeeds, and one on which every
    invocation exits non-zero. *)
Definition bmc_ok (_ : list (command * outcome)) (_ : command) : outcome :=
  Returned.

Definition bmc_down (_ : list (command * outcome)) (_ : command) : outcome :=
  CalledProcessError.

(** A BMC that accepts manual mode and then hangs on the speed command. *)
Definition bmc_hangs_on_set (_ : list (command * outcome)) (cmd : command)
  : outcome :=
  match cmd with
  | enable_manual_speed_set => Returned
  | set_fans_speed _ => TimeoutExpired
  end.

(** An environment with nothing set, and one that sets two of the integer
    variables and the credentials. *)
Definition env_empty (_ : string) : option string := None.

Definition env_site (name : string) : option string :=
  if String.eqb name "DEFAULT_FAN_SPEED" then Some "32"%string
  else if String.eqb name "SLOW_DOWN_INTERVAL_COUNT" then Some "5"%string
  else if String.eqb name "IPMI_USER" then Some "root"%string
  else if String.eqb name "IPMI_PASSWD" then Some "calvin"%string
  else None.

Definition env_bad_interval (name : string) : option string :=
  if String.eqb name "INTERVAL" then Some "6s"%string else None.

(** ** The program *)

(** The module-level settings, as the [try] block at import time binds
    them.  The fields carry the names of the globals, prefixed. *)
Record config : Type := {
  cfg_DEFAULT_FAN_SPEED : Z;
  cfg_INTERVAL : Z;
  cfg_SLOW_DOWN_INTERVAL_COUNT : Z;
  cfg_CMD_TIMEOUT : Z;
  cfg_IPMI_USER : string;
  cfg_IPMI_PASSWD : string;
  cfg_IPMI_TOOL_PATH : string;
  cfg_IPMI_CMD : string
}.

(** The statuses passed to [sys.exit], and the log record written just
    before. *)
Inductive errno : Type := EINVAL | EPERM.

Inductive startup_log : Type :=
| log_failed_to_parse_config
| log_should_be_run_as_root.

(** How running the script starts: it exits, or it calls [main_loop] with
    the settings bound. *)
Inductive startup : Type :=
| Exit (code : errno) (logged : startup_log)
| Enter_main_loop (cfg : config).

(** [f"{z}"] for a Python [int]: decimal digits, with a minus sign below
    zero. *)
Definition str_int (z : Z) : string := NilZero.string_of_int (Z.to_int z).

(** The command line [ipmitool_set_fan_speed] formats for each command,
    before [shlex.split]. *)
Definition command_text (IPMI_CMD : string) (cmd : command) : string :=
  match cmd with
  | enable_manual_speed_set =>
      (IPMI_CMD ++ " raw 0x30 0x30 0x01 0x00")%string
  | set_fans_speed fan_speed =>
      (IPMI_CMD ++ " raw 0x30 0x30 0x02 0xff 0x" ++ str_int fan_speed)%string
  end.

Definition MAX_FAN_SPEED : Z := 64.

Definition _MAXIUM_TEMP : temperature := PosInf.

(** The local variables of [main_loop] that survive a tick. *)
Record loop_state : Type := {
  fan_speed : Z;
  slow_down_interval_count : Z
}.

Section Fansd.

(** Configuration read from the environment at import time. *)
Variable DEFAULT_FAN_SPEED : Z.
Variable SLOW_DOWN_INTERVAL_COUNT : Z.

(** Python's builtin [int] on the sensor text: [Some z] when it returns [z],
    [None] when it raises [ValueError]. *)
Variable py_int : string -> option Z.

(** The outside world behind [subprocess.check_call]: given the invocations
    made so far and the command, how this invocation ends. *)
Variable check_call : list (command * outcome) -> command -> outcome.

Definition subprocess_check_call (cmd : command) : M outcome :=
  fun tr => let o := check_call (invocations tr) cmd in (o, tr ++ [Run cmd o]).

Definition _subprocess_call (cmd : command) : M bool :=
  o <- subprocess_check_call cmd ;;
  match o with
  | Returned => ret true
  | CalledProcessError => log ERROR (msg_cmd_failed cmd) ;; ret false
  | TimeoutExpired => log ERROR (msg_cmd_timeout cmd) ;; ret false
  end.

Definition ipmitool_set_fan_speed (fan_speed : Z) : M bool :=
  emit (Enter fan_speed) ;;
  fan_speed <-
    (if (fan_speed >? MAX_FAN_SPEED) || (fan_speed <? DEFAULT_FAN_SPEED)
     then log WARNING (msg_invalid_fan_speed fan_speed) ;; ret MAX_FAN_SPEED
     else ret fan_speed) ;;
  ok <- _subprocess_call enable_manual_speed_set ;;
  if negb ok then
    log ERROR msg_failed_manual_mode ;; ret false
  else
    ok <- _subprocess_call (set_fans_speed fan_speed) ;;
    if ok then
      log INFO (msg_set_fanspeed fan_speed) ;; ret true
    else
      log ERROR (msg_failed_set_fan_speed fan_speed) ;; ret false.

Definition temp_fan_speed_curve (temp : temperature) : M Z :=
  if temp_gtb temp 0 && temp_ltb temp 50000 then ret 20
  else if temp_ltb temp 61000 then ret 32
  else if temp_ltb temp 66000 then ret 48
  else log WARNING (msg_exceed_normal_range temp) ;; ret MAX_FAN_SPEED.

(** [cpu1_temp_raw] is the text just read from the sensor file. *)
Definition get_temp (cpu1_temp_raw : string) : M temperature :=
  match py_int cpu1_temp_raw with
  | Some z => ret (Millideg z)
  | None =>
      log WARNING (msg_not_valid_number cpu1_temp_raw) ;; ret _MAXIUM_TEMP
  end.

(** One iteration of the [while True] loop of [main_loop], up to the sleep. *)
Definition loop_body (st : loop_state) (cpu1_temp_raw : string)
  : M loop_state :=
  temp <- get_temp cpu1_temp_raw ;;
  new_fan_speed <- temp_fan_speed_curve temp ;;
  if new_fan_speed >? fan_speed st then
    log INFO (msg_speed_up temp (fan_speed st) new_fan_speed) ;;
    ipmitool_set_fan_speed new_fan_speed ;;
    ret {| fan_speed := new_fan_speed;
           slow_down_interval_count := SLOW_DOWN_INTERVAL_COUNT |}
  else if (new_fan_speed <? fan_speed st)
          && (slow_down_interval_count st <? 0) then
    log INFO (msg_slow_down temp (fan_speed st) new_fan_speed) ;;
    ipmitool_set_fan_speed new_fan_speed ;;
    ret {| fan_speed := new_fan_speed;
           slow_down_interval_count := SLOW_DOWN_INTERVAL_COUNT |}
  else if (new_fan_speed <? fan_speed st)
          && (slow_down_interval_count st >=? 0) then
    ret {| fan_speed := fan_speed st;
           slow_down_interval_count := slow_down_interval_count st - 1 |}
  else ret st.

(** The state [main_loop] enters its loop with. *)
Definition initial_state : loop_state :=
  {| fan_speed := DEFAULT_FAN_SPEED;
     slow_down_interval_count := SLOW_DOWN_INTERVAL_COUNT |}.

(** The loop never returns; its finite prefixes are driven by the sensor
    texts read so far, one per tick (a read that fails ends the process).
    The result lists the state at the end of every tick.  The sleep between
    ticks is not part of the model. *)
Fixpoint main_loop_from (st : loop_state) (raws : list string)
  : M (list loop_state) :=
  match raws with
  | [] => ret []
  | raw :: raws' =>
      st' <- loop_body st raw ;;
      rest <- main_loop_from st' raws' ;;
      ret (st' :: rest)
  end.

Definition main_loop (raws : list string) : M (list loop_state) :=
  main_loop_from initial_state raws.

(** Configurations (loop state and trace) the daemon can be in at the top of
    its loop. *)
Inductive reachable : loop_state -> trace -> Prop :=
| reachable_start : reachable initial_state []
| reachable_tick st tr raw :
    reachable st tr ->
    reachable (fst (loop_body st raw tr)) (snd (loop_body st raw tr)).

(** The speed the curve asks for on a given sensor text. *)
Definition target_of (cpu1_temp_raw : string) : Z :=
  fst ((temp <- get_temp cpu1_temp_raw ;; temp_fan_speed_curve temp) []).

(** Whether a tick with target [new] programs the BMC. *)
Definition applies (st : loop_state) (new : Z) : bool :=
  (new >? fan_speed st)
  || ((new <? fan_speed st) && (slow_down_interval_count st <? 0)).

(** [int(os.getenv(name, default=d))]: the variable's text read by [int]
    when it is set, the integer default otherwise. *)
Definition getenv_int (env : string -> option string) (name : string)
  (default : Z) : option Z :=
  match env name with
  | Some text => py_int text
  | None => Some default
  end.

(** [os.getenv(name, default=d)] for the text settings. *)
Definition getenv_str (env : string -> option string) (name : string)
  (default : string) : string :=
  match env name with
  | Some text => text
  | None => default
  end.

(** The [try] block at import time; [None] when [int] raises inside it. *)
Definition load_config (env : string -> option string) : option config :=
  match getenv_int env "DEFAULT_FAN_SPEED" 20 with
  | None => None
  | Some default_fan_speed =>
  match getenv_int env "INTERVAL" 6 with
  | None => None
  | Some interval =>
  match getenv_int env "SLOW_DOWN_INTERVAL_COUNT" 3 with
  | None => None
  | Some slow_down_interval_count =>
  match getenv_int env "CMD_TIMEOUT" 3 with
  | None => None
  | Some cmd_timeout =>
      let ipmi_user := getenv_str env "IPMI_USER" "" in
      let ipmi_passwd := getenv_str env "IPMI_PASSWD" "" in
      let ipmi_tool_path := getenv_str env "IPMI_TOOL_PATH" "ipmitool" in
      Some {| cfg_DEFAULT_FAN_SPEED := default_fan_speed;
              cfg_INTERVAL := interval;
              cfg_SLOW_DOWN_INTERVAL_COUNT := slow_down_interval_count;
              cfg_CMD_TIMEOUT := cmd_timeout;
              cfg_IPMI_USER := ipmi_user;
              cfg_IPMI_PASSWD := ipmi_passwd;
              cfg_IPMI_TOOL_PATH := ipmi_tool_path;
              cfg_IPMI_CMD :=
                (ipmi_tool_path ++ " -U " ++ ipmi_user
                   ++ " -P " ++ ipmi_passwd ++ " ")%string |}
  end end end end.

(** Running the file as a script, up to the call of [main_loop]: the
    settings are bound first, then the user id is checked. *)
Definition script (env : string -> option string) (uid : Z) : startup :=
  match load_config env with
  | None => Exit EINVAL log_failed_to_parse_config
  | Some cfg =>
      if negb (uid =? 0) then Exit EPERM log_should_be_run_as_root
      else Enter_main_loop cfg
  end.

(** ** Traces *)

(** The last element of a non-empty list does not look at the default. *)
Lemma last_cons_default {A : Type} (x : A) (l : list A) (d : A) :
  last (x :: l) d = last l x.
Proof.
  revert x d. induction l as [| y l IH]; intros x d; [reflexivity |].
  change (last (x :: y :: l) d) with (last (y :: l) d).
  now rewrite !IH.
Qed.


Lemma invocations_app (tr1 tr2 : trace) :
  invocations (tr1 ++ tr2) = invocations tr1 ++ invocations tr2.
Proof.
  induction tr1 as [| [lvl msg | cmd o | v] tr1 IH]; simpl; congruence.
Qed.

Lemma entered_app (tr1 tr2 : trace) :
  entered (tr1 ++ tr2) = entered tr1 ++ entered tr2.
Proof.
  induction tr1 as [| [lvl msg | cmd o | v] tr1 IH]; simpl; congruence.
Qed.

Lemma oblivious_ret {A : Type} (a : A) : oblivious (ret a).
Proof.
  exists a, []. split; [now split |].
  intros tr. unfold ret. now rewrite app_nil_r.
Qed.

Lemma oblivious_log {A : Type} (lvl : level) (msg : message) (a : A) :
  oblivious (log lvl msg ;; ret a).
Proof.
  exists a, [Log lvl msg]. split; [now split | reflexivity].
Qed.

Lemma oblivious_get_temp (raw : string) : oblivious (get_temp raw).
Proof.
  unfold get_temp. destruct (py_int raw) as [z |].
  - apply oblivious_ret.
  - apply oblivious_log.
Qed.

Lemma oblivious_temp_fan_speed_curve (temp : temperature) :
  oblivious (temp_fan_speed_curve temp).
Proof.
  unfold temp_fan_speed_curve.
  repeat match goal with
         | |- oblivious (if ?c then _ else _) => destruct c
         end;
    solve [apply oblivious_ret | apply oblivious_log].
Qed.

(** The value of the curve does not depend on the trace it runs on. *)
Lemma temp_fan_speed_curve_value (temp : temperature) (tr : trace) :
  fst (temp_fan_speed_curve temp tr) = fst (temp_fan_speed_curve temp []).
Proof.
  destruct (oblivious_temp_fan_speed_curve temp) as (v & evs & _ & H).
  now rewrite (H tr), (H []).
Qed.

(** The curve, band by band, as the code computes it. *)
Lemma temp_fan_speed_curve_bands (temp : temperature) (tr : trace) :
  temp_fan_speed_curve temp tr =
    match temp with
    | Millideg z =>
        if (0 <? z) && (z <? 50000) then (20, tr)
        else if z <? 61000 then (32, tr)
        else if z <? 66000 then (48, tr)
        else (64, tr ++ [Log WARNING (msg_exceed_normal_range temp)])
    | PosInf => (64, tr ++ [Log WARNING (msg_exceed_normal_range temp)])
    end.
Proof.
  unfold temp_fan_speed_curve. destruct temp as [z |]; simpl.
  - rewrite Z.gtb_ltb.
    destruct (0 <? z), (z <? 50000), (z <? 61000), (z <? 66000);
      reflexivity.
  - reflexivity.
Qed.

Lemma temp_fan_speed_curve_image (temp : temperature) (tr : trace) :
  In (fst (temp_fan_speed_curve temp tr)) [20; 32; 48; 64].
Proof.
  rewrite temp_fan_speed_curve_bands. destruct temp as [z |]; simpl.
  - destruct (0 <? z), (z <? 50000), (z <? 61000), (z <? 66000);
      simpl; tauto.
  - tauto.
Qed.

(** ** The BMC operation *)

(** A call of the BMC operation appends its marker and nothing that looks
    like another call. *)
Lemma ipmitool_set_fan_speed_trace (v : Z) (tr : trace) :
  exists evs,
    snd (ipmitool_set_fan_speed v tr) = tr ++ Enter v :: evs /\
    entered evs = [].
Proof.
  unfold ipmitool_set_fan_speed, _subprocess_call, subprocess_check_call,
    bind, ret, log, emit.
  destruct ((v >? MAX_FAN_SPEED) || (v <? DEFAULT_FAN_SPEED)); simpl;
    repeat match goal with
           | |- context [check_call ?h ?c] => destruct (check_call h c); simpl
           end;
    rewrite <- ?app_assoc; simpl; eexists; split; reflexivity.
Qed.

Lemma ipmitool_set_fan_speed_entered (v : Z) (tr : trace) :
  entered (snd (ipmitool_set_fan_speed v tr)) = entered tr ++ [v].
Proof.
  destruct (ipmitool_set_fan_speed_trace v tr) as (evs & -> & Hevs).
  rewrite entered_app. simpl. now rewrite Hevs.
Qed.

(** ** One tick *)

(** Reading the sensor and evaluating the curve leaves log records only and
    yields [target_of]. *)
Lemma loop_body_read (st : loop_state) (raw : string) :
  exists temp evs,
    quiet evs /\
    forall tr,
      loop_body st raw tr =
        let new := target_of raw in
        (if new >? fan_speed st then
           log INFO (msg_speed_up temp (fan_speed st) new) ;;
           ipmitool_set_fan_speed new ;;
           ret {| fan_speed := new;
                  slow_down_interval_count := SLOW_DOWN_INTERVAL_COUNT |}
         else if (new <? fan_speed st)
                 && (slow_down_interval_count st <? 0) then
           log INFO (msg_slow_down temp (fan_speed st) new) ;;
           ipmitool_set_fan_speed new ;;
           ret {| fan_speed := new;
                  slow_down_interval_count := SLOW_DOWN_INTERVAL_COUNT |}
         else if (new <? fan_speed st)
                 && (slow_down_interval_count st >=? 0) then
           ret {| fan_speed := fan_speed st;
                  slow_down_interval_count :=
                    slow_down_interval_count st - 1 |}
         else ret st) (tr ++ evs).
Proof.
  destruct (oblivious_get_temp raw) as (temp & evs1 & [Hi1 He1] & H1).
  destruct (oblivious_temp_fan_speed_curve temp)
    as (new & evs2 & [Hi2 He2] & H2).
  exists temp, (evs1 ++ evs2). split.
  - split.
    + now rewrite invocations_app, Hi1, Hi2.
    + now rewrite entered_app, He1, He2.
  - intros tr. unfold loop_body, target_of, bind.
    rewrite (H1 tr), (H1 []), (H2 (tr ++ evs1)), (H2 ([] ++ evs1)).
    simpl. now rewrite app_assoc.
Qed.

(** The state a tick leaves, as a function of the state it found and of the
    target: the BMC's answers play no part. *)
Lemma loop_body_state (st : loop_state) (raw : string) (tr : trace) :
  fst (loop_body st raw tr) =
    let new := target_of raw in
    if new >? fan_speed st then
      {| fan_speed := new;
         slow_down_interval_count := SLOW_DOWN_INTERVAL_COUNT |}
    else if (new <? fan_speed st) && (slow_down_interval_count st <? 0) then
      {| fan_speed := new;
         slow_down_interval_count := SLOW_DOWN_INTERVAL_COUNT |}
    else if (new <? fan_speed st) && (slow_down_interval_count st >=? 0) then
      {| fan_speed := fan_speed st;
         slow_down_interval_count := slow_down_interval_count st - 1 |}
    else st.
Proof.
  destruct (loop_body_read st raw) as (temp & evs & _ & H). rewrite H.
  cbv zeta. unfold bind, log, emit, ret.
  destruct (target_of raw >? fan_speed st).
  { now destruct (ipmitool_set_fan_speed _ _). }
  destruct ((target_of raw <? fan_speed st)
            && (slow_down_interval_count st <? 0)).
  { now destruct (ipmitool_set_fan_speed _ _). }
  now destruct ((target_of raw <? fan_speed st)
                && (slow_down_interval_count st >=? 0)).
Qed.

(** The calls of the BMC operation a tick makes: one, with the target, when
    the change is applied; none otherwise. *)
Lemma loop_body_entered (st : loop_state) (raw : string) (tr : trace) :
  entered (snd (loop_body st raw tr)) =
    entered tr ++ (if applies st (target_of raw) then [target_of raw] else []).
Proof.
  destruct (loop_body_read st raw) as (temp & evs & [_ He] & H). rewrite H.
  cbv zeta. unfold applies, bind, log, emit, ret.
  destruct (target_of raw >? fan_speed st); simpl.
  { pose proof (ipmitool_set_fan_speed_entered (target_of raw)
                  ((tr ++ evs) ++ [Log INFO
                     (msg_speed_up temp (fan_speed st) (target_of raw))]))
      as E.
    destruct (ipmitool_set_fan_speed _ _) as [ok tr']. simpl in *.
    rewrite E, !entered_app, He. simpl. now rewrite !app_nil_r. }
  destruct ((target_of raw <? fan_speed st)
            && (slow_down_interval_count st <? 0)); simpl.
  { pose proof (ipmitool_set_fan_speed_entered (target_of raw)
                  ((tr ++ evs) ++ [Log INFO
                     (msg_slow_down temp (fan_speed st) (target_of raw))]))
      as E.
    destruct (ipmitool_set_fan_speed _ _) as [ok tr']. simpl in *.
    rewrite E, !entered_app, He. simpl. now rewrite !app_nil_r. }
  destruct ((target_of raw <? fan_speed st)
            && (slow_down_interval_count st >=? 0)); simpl;
    now rewrite entered_app, He.
Qed.

(** A tick that does not apply a change runs no command. *)
Lemma loop_body_invocations (st : loop_state) (raw : string) (tr : trace) :
  applies st (target_of raw) = false ->
  invocations (snd (loop_body st raw tr)) = invocations tr.
Proof.
  destruct (loop_body_read st raw) as (temp & evs & [Hi _] & H). rewrite H.
  cbv zeta. unfold applies, bind, log, emit, ret.
  destruct (target_of raw >? fan_speed st); simpl; [discriminate |].
  destruct ((target_of raw <? fan_speed st)
            && (slow_down_interval_count st <? 0)); simpl; [discriminate |].
  intros _.
  destruct ((target_of raw <? fan_speed st)
            && (slow_down_interval_count st >=? 0)); simpl;
    now rewrite invocations_app, Hi, app_nil_r.
Qed.

Lemma target_of_image (raw : string) : In (target_of raw) [20; 32; 48; 64].
Proof.
  unfold target_of, bind.
  destruct (get_temp raw []) as [temp tr]. apply temp_fan_speed_curve_image.
Qed.

(** ** Runs *)

Lemma main_loop_from_nil (st : loop_state) (tr : trace) :
  main_loop_from st [] tr = ([], tr).
Proof. reflexivity. Qed.

Lemma main_loop_from_cons (st : loop_state) (raw : string)
  (raws : list string) (tr : trace) :
  main_loop_from st (raw :: raws) tr =
    let r := loop_body st raw tr in
    let rs := main_loop_from (fst r) raws (snd r) in
    (fst r :: fst rs, snd rs).
Proof.
  simpl. unfold bind, ret.
  destruct (loop_body st raw tr) as [st' tr']. simpl.
  now destruct (main_loop_from st' raws tr').
Qed.

(** Every configuration met along a run is reachable, and every reachable
    configuration ends some run. *)
Lemma reachable_from (raws : list string) (st : loop_state) (tr : trace) :
  reachable st tr ->
  reachable (last (fst (main_loop_from st raws tr)) st)
            (snd (main_loop_from st raws tr)).
Proof.
  revert st tr. induction raws as [| raw raws IH]; intros st tr Hr.
  - exact Hr.
  - rewrite main_loop_from_cons. cbv zeta. cbn [fst snd].
    rewrite last_cons_default.
    apply IH. now constructor.
Qed.

Lemma reachable_run (raws : list string) :
  reachable (last (fst (main_loop raws [])) initial_state)
            (snd (main_loop raws [])).
Proof. apply reachable_from. constructor. Qed.

Lemma main_loop_from_snoc (raws : list string) (raw : string)
  (st : loop_state) (tr : trace) :
  let r := main_loop_from st raws tr in
  let r' := main_loop_from st (raws ++ [raw]) tr in
  last (fst r') st = fst (loop_body (last (fst r) st) raw (snd r)) /\
  snd r' = snd (loop_body (last (fst r) st) raw (snd r)).
Proof.
  revert st tr. induction raws as [| r0 raws IH]; intros st tr.
  - simpl. unfold bind, ret. now destruct (loop_body st raw tr).
  - cbv zeta. rewrite <- app_comm_cons, !main_loop_from_cons.
    cbv zeta. cbn [fst snd]. rewrite !last_cons_default. apply IH.
Qed.

Lemma run_reachable (st : loop_state) (tr : trace) :
  reachable st tr ->
  exists raws,
    last (fst (main_loop raws [])) initial_state = st /\
    snd (main_loop raws []) = tr.
Proof.
  unfold main_loop.
  induction 1 as [| st tr raw Hr (raws & Hs & Ht)].
  - now exists [].
  - exists (raws ++ [raw]).
    destruct (main_loop_from_snoc raws raw initial_state []) as [G1 G2].
    now rewrite G1, G2, Hs, Ht.
Qed.

(** ** The claims about the curve and the BMC operation *)

(** C1 (the code departs from the claim here): at a temperature of zero or
    below the curve returns 32, not the maximum 64.  The first test fails on
    [temp > 0], and the next band, which only asks [temp < 61000], takes the
    reading; nothing is logged. *)
Theorem temp_fan_speed_curve_nonpositive (tr : trace) :
  temp_fan_speed_curve (Millideg 0) tr = (32, tr) /\
  temp_fan_speed_curve (Millideg (-5)) tr = (32, tr) /\
  temp_fan_speed_curve (Millideg (-100)) tr = (32, tr).
Proof. repeat split. Qed.

(** What a call of the BMC operation runs and returns, from the answers of
    the outside world: [a] to enabling manual mode, [b] to setting the
    speed. *)
Lemma ipmitool_set_fan_speed_run (fan_speed : Z) (tr : trace) :
  let level :=
    if (fan_speed >? MAX_FAN_SPEED) || (fan_speed <? DEFAULT_FAN_SPEED)
    then MAX_FAN_SPEED else fan_speed in
  let a := check_call (invocations tr) enable_manual_speed_set in
  let b := check_call (invocations tr ++ [(enable_manual_speed_set, a)])
             (set_fans_speed level) in
  let r := ipmitool_set_fan_speed fan_speed tr in
  fst r = match a, b with
          | Returned, Returned => true
          | _, _ => false
          end /\
  invocations (snd r) =
    invocations tr ++
      match a with
      | Returned => [(enable_manual_speed_set, a); (set_fans_speed level, b)]
      | _ => [(enable_manual_speed_set, a)]
      end.
Proof.
  unfold ipmitool_set_fan_speed, _subprocess_call, subprocess_check_call,
    bind, ret, log, emit.
  destruct ((fan_speed >? MAX_FAN_SPEED) || (fan_speed <? DEFAULT_FAN_SPEED));
    cbv zeta; cbn [fst snd];
    rewrite ?invocations_app; cbn [invocations]; rewrite ?app_nil_r;
    destruct (check_call (invocations tr) enable_manual_speed_set) eqn:Ea;
    cbn [negb fst snd];
    rewrite ?invocations_app; cbn [invocations app]; rewrite ?app_nil_r;
    try (split; reflexivity);
    match goal with
    | |- context [check_call ?h (set_fans_speed ?v)] =>
        destruct (check_call h (set_fans_speed v)) eqn:Eb
    end;
    cbn [fst snd];
    rewrite ?invocations_app; cbn [invocations app]; rewrite ?app_nil_r;
    rewrite <- ?app_assoc; cbn [app];
    split; reflexivity.
Qed.

(** C4: [ipmitool_set_fan_speed] returns [True] exactly when both
    invocations succeed.  When enabling manual mode fails (non-zero exit or
    timeout) that is the only command run and the result is [False]; when it
    succeeds the speed command is run as well and decides the result. *)
Theorem ipmitool_set_fan_speed_result (fan_speed : Z) (tr : trace) :
  let level :=
    if (fan_speed >? MAX_FAN_SPEED) || (fan_speed <? DEFAULT_FAN_SPEED)
    then MAX_FAN_SPEED else fan_speed in
  let a := check_call (invocations tr) enable_manual_speed_set in
  let b := check_call (invocations tr ++ [(enable_manual_speed_set, a)])
             (set_fans_speed level) in
  let r := ipmitool_set_fan_speed fan_speed tr in
  (fst r = true <-> a = Returned /\ b = Returned) /\
  (a <> Returned ->
   fst r = false /\
   invocations (snd r) = invocations tr ++ [(enable_manual_speed_set, a)]) /\
  (a = Returned ->
   fst r = match b with Returned => true | _ => false end /\
   invocations (snd r) =
     invocations tr ++
       [(enable_manual_speed_set, Returned); (set_fans_speed level, b)]).
Proof.
  cbv zeta. destruct (ipmitool_set_fan_speed_run fan_speed tr) as [Hr Hi].
  cbv zeta in Hr, Hi. rewrite Hr, Hi.
  destruct (check_call (invocations tr) enable_manual_speed_set) eqn:Ea.
  - split; [| split].
    + split.
      * intros Hb. split; [reflexivity |]. revert Hb.
        destruct (check_call (_ ++ _) _); [reflexivity | discriminate ..].
      * intros [_ Hb]. now rewrite Hb.
    + intros Hne. now contradiction Hne.
    + intros _. now split.
  - split; [| split].
    + split; [discriminate | intros [Ha _]; discriminate].
    + intros _. now split.
    + discriminate.
  - split; [| split].
    + split; [discriminate | intros [Ha _]; discriminate].
    + intros _. now split.
    + discriminate.
Qed.

(** C7: sensor text that [int] rejects makes [get_temp] log one warning and
    return the infinite sentinel, and the curve sends that reading to the
    maximum speed 64. *)
Theorem get_temp_unparsable (cpu1_temp_raw : string) (tr : trace) :
  py_int cpu1_temp_raw = None ->
  get_temp cpu1_temp_raw tr =
    (_MAXIUM_TEMP,
     tr ++ [Log WARNING (msg_not_valid_number cpu1_temp_raw)]) /\
  fst ((temp <- get_temp cpu1_temp_raw ;; temp_fan_speed_curve temp) tr)
    = 64 /\
  target_of cpu1_temp_raw = MAX_FAN_SPEED.
Proof.
  intros Hint. unfold target_of, bind, get_temp. rewrite Hint.
  repeat split.
Qed.

(** An out-of-range argument is reported and replaced before the first
    command is run. *)
Lemma ipmitool_set_fan_speed_warns_first (v : Z) (tr : trace) :
  (v >? MAX_FAN_SPEED) || (v <? DEFAULT_FAN_SPEED) = true ->
  exists evs,
    snd (ipmitool_set_fan_speed v tr) =
      tr ++ Enter v
         :: Log WARNING (msg_invalid_fan_speed v)
         :: Run enable_manual_speed_set
              (check_call (invocations tr) enable_manual_speed_set)
         :: evs.
Proof.
  intros Hc.
  unfold ipmitool_set_fan_speed, _subprocess_call, subprocess_check_call,
    bind, ret, log, emit.
  rewrite Hc. cbn [fst snd].
  rewrite !invocations_app. cbn [invocations]. rewrite !app_nil_r.
  destruct (check_call (invocations tr) enable_manual_speed_set);
    cbn [fst snd negb];
    repeat match goal with
           | |- context [check_call ?h (set_fans_speed ?x)] =>
               destruct (check_call h (set_fans_speed x)); cbn [fst snd]
           end;
    rewrite <- ?app_assoc; cbn [app]; eexists; reflexivity.
Qed.

(** C8: a speed above [MAX_FAN_SPEED] or below [DEFAULT_FAN_SPEED] is
    replaced by [MAX_FAN_SPEED] before any command is run.  The call logs
    the warning, then enables manual mode, and the speed command it runs
    when that succeeds is the one for [MAX_FAN_SPEED]; its result follows
    the answers to these two commands.  So the call runs the same commands,
    with the same outcomes, and returns the same result as a call with
    [MAX_FAN_SPEED]; with a default of 20, a call with 5 enables manual mode
    and sets speed 64, as a call with 64 does. *)
Theorem ipmitool_set_fan_speed_out_of_range :
  (forall (fan_speed : Z) (tr : trace),
     fan_speed > MAX_FAN_SPEED \/ fan_speed < DEFAULT_FAN_SPEED ->
     let a := check_call (invocations tr) enable_manual_speed_set in
     let b := check_call (invocations tr ++ [(enable_manual_speed_set, a)])
                (set_fans_speed MAX_FAN_SPEED) in
     let r := ipmitool_set_fan_speed fan_speed tr in
     (exists evs,
        snd r = tr ++ Enter fan_speed
                   :: Log WARNING (msg_invalid_fan_speed fan_speed)
                   :: Run enable_manual_speed_set a
                   :: evs) /\
     invocations (snd r) =
       invocations tr ++
         match a with
         | Returned =>
             [(enable_manual_speed_set, a);
              (set_fans_speed MAX_FAN_SPEED, b)]
         | _ => [(enable_manual_speed_set, a)]
         end /\
     fst r = match a, b with
             | Returned, Returned => true
             | _, _ => false
             end /\
     fst r = fst (ipmitool_set_fan_speed MAX_FAN_SPEED tr) /\
     invocations (snd r)
       = invocations (snd (ipmitool_set_fan_speed MAX_FAN_SPEED tr))) /\
  (DEFAULT_FAN_SPEED = 20 ->
   forall tr : trace,
     let a := check_call (invocations tr) enable_manual_speed_set in
     let b := check_call (invocations tr ++ [(enable_manual_speed_set, a)])
                (set_fans_speed 64) in
     invocations (snd (ipmitool_set_fan_speed 5 tr)) =
       invocations tr ++
         match a with
         | Returned =>
             [(enable_manual_speed_set, a); (set_fans_speed 64, b)]
         | _ => [(enable_manual_speed_set, a)]
         end /\
     fst (ipmitool_set_fan_speed 5 tr) = fst (ipmitool_set_fan_speed 64 tr) /\
     invocations (snd (ipmitool_set_fan_speed 5 tr))
       = invocations (snd (ipmitool_set_fan_speed 64 tr))).
Proof.
  assert (G : forall (fan_speed : Z) (tr : trace),
             fan_speed > MAX_FAN_SPEED \/ fan_speed < DEFAULT_FAN_SPEED ->
             (exists evs,
                snd (ipmitool_set_fan_speed fan_speed tr) =
                  tr ++ Enter fan_speed
                     :: Log WARNING (msg_invalid_fan_speed fan_speed)
                     :: Run enable_manual_speed_set
                          (check_call (invocations tr)
                             enable_manual_speed_set)
                     :: evs) /\
             invocations (snd (ipmitool_set_fan_speed fan_speed tr)) =
               invocations tr ++
                 match check_call (invocations tr) enable_manual_speed_set
                 with
                 | Returned =>
                     [(enable_manual_speed_set,
                       check_call (invocations tr) enable_manual_speed_set);
                      (set_fans_speed MAX_FAN_SPEED,
                       check_call
                         (invocations tr ++
                            [(enable_manual_speed_set,
                              check_call (invocations tr)
                                enable_manual_speed_set)])
                         (set_fans_speed MAX_FAN_SPEED))]
                 | _ =>
                     [(enable_manual_speed_set,
                       check_call (invocations tr) enable_manual_speed_set)]
                 end /\
             fst (ipmitool_set_fan_speed fan_speed tr) =
               match check_call (invocations tr) enable_manual_speed_set,
                     check_call
                       (invocations tr ++
                          [(enable_manual_speed_set,
                            check_call (invocations tr)
                              enable_manual_speed_set)])
                       (set_fans_speed MAX_FAN_SPEED)
               with
               | Returned, Returned => true
               | _, _ => false
               end /\
             fst (ipmitool_set_fan_speed fan_speed tr)
               = fst (ipmitool_set_fan_speed MAX_FAN_SPEED tr) /\
             invocations (snd (ipmitool_set_fan_speed fan_speed tr))
               = invocations (snd (ipmitool_set_fan_speed MAX_FAN_SPEED tr))).
  { intros v tr Hv.
    assert (Hc : (v >? MAX_FAN_SPEED) || (v <? DEFAULT_FAN_SPEED) = true).
    { apply orb_true_iff. destruct Hv; [left | right]; lia. }
    pose proof (ipmitool_set_fan_speed_run v tr) as [R1 I1].
    pose proof (ipmitool_set_fan_speed_run MAX_FAN_SPEED tr) as [R2 I2].
    rewrite Hc in R1, I1.
    replace (if (MAX_FAN_SPEED >? MAX_FAN_SPEED)
                || (MAX_FAN_SPEED <? DEFAULT_FAN_SPEED)
             then MAX_FAN_SPEED else MAX_FAN_SPEED)
      with MAX_FAN_SPEED in R2, I2
      by now destruct ((MAX_FAN_SPEED >? MAX_FAN_SPEED)
                       || (MAX_FAN_SPEED <? DEFAULT_FAN_SPEED)).
    split; [exact (ipmitool_set_fan_speed_warns_first v tr Hc) |].
    split; [exact I1 |]. split; [exact R1 |].
    split; congruence. }
  split; [exact G |].
  intros Hd tr. cbv zeta.
  destruct (G 5 tr) as (_ & I & _ & R & S); [right; lia |].
  split; [exact I |]. split; [exact R | exact S].
Qed.

(** ** The claims about the control loop *)

(** What a tick does to the state, split by whether the change is applied. *)
Lemma loop_body_applied (st : loop_state) (raw : string) (tr : trace) :
  applies st (target_of raw) = true ->
  fst (loop_body st raw tr) =
    {| fan_speed := target_of raw;
       slow_down_interval_count := SLOW_DOWN_INTERVAL_COUNT |}.
Proof.
  rewrite loop_body_state. unfold applies. cbv zeta.
  destruct (target_of raw >? fan_speed st); [reflexivity |].
  destruct ((target_of raw <? fan_speed st)
            && (slow_down_interval_count st <? 0)); [reflexivity |].
  discriminate.
Qed.

Lemma loop_body_not_applied (st : loop_state) (raw : string) (tr : trace) :
  applies st (target_of raw) = false ->
  fan_speed (fst (loop_body st raw tr)) = fan_speed st /\
  (slow_down_interval_count (fst (loop_body st raw tr))
     = slow_down_interval_count st \/
   0 <= slow_down_interval_count st /\
   slow_down_interval_count (fst (loop_body st raw tr))
     = slow_down_interval_count st - 1).
Proof.
  rewrite loop_body_state. unfold applies. cbv zeta.
  destruct (target_of raw >? fan_speed st); [discriminate |].
  destruct (target_of raw <? fan_speed st); simpl.
  - destruct (slow_down_interval_count st <? 0) eqn:Hc; [discriminate |].
    intros _. apply Z.ltb_ge in Hc.
    destruct (slow_down_interval_count st >=? 0) eqn:Hg; simpl.
    + split; [reflexivity | right]. split; [lia | reflexivity].
    + split; [reflexivity | now left].
  - intros _. split; [reflexivity | now left].
Qed.

(** While the countdown lasts, lower targets change nothing but the
    countdown: [k] of them in a row, with [k] at most the countdown plus one,
    leave the speed alone, take [k] off the countdown and run no command. *)
Lemma slow_down_deferred (raws : list string) (st : loop_state) (tr : trace) :
  Forall (fun raw => target_of raw < fan_speed st) raws ->
  Z.of_nat (List.length raws) <= slow_down_interval_count st + 1 ->
  let r := main_loop_from st raws tr in
  last (fst r) st =
    {| fan_speed := fan_speed st;
       slow_down_interval_count :=
         slow_down_interval_count st - Z.of_nat (List.length raws) |} /\
  Forall (fun s => fan_speed s = fan_speed st) (fst r) /\
  entered (snd r) = entered tr /\
  invocations (snd r) = invocations tr.
Proof.
  revert st tr. induction raws as [| raw raws IH]; intros st tr Hlow Hlen.
  - simpl. rewrite Z.sub_0_r. destruct st. repeat split. constructor.
  - cbv zeta. rewrite main_loop_from_cons. cbv zeta. cbn [fst snd].
    rewrite last_cons_default.
    apply Forall_cons_iff in Hlow. destruct Hlow as [Hraw Hlow].
    cbn [List.length] in Hlen. rewrite Nat2Z.inj_succ in Hlen.
    assert (Hna : applies st (target_of raw) = false).
    { unfold applies. apply orb_false_iff. split.
      - rewrite Z.gtb_ltb. apply Z.ltb_ge. lia.
      - apply andb_false_iff. right. apply Z.ltb_ge. lia. }
    assert (Hst : fst (loop_body st raw tr) =
                  {| fan_speed := fan_speed st;
                     slow_down_interval_count :=
                       slow_down_interval_count st - 1 |}).
    { rewrite loop_body_state. cbv zeta.
      replace (target_of raw >? fan_speed st) with false
        by (symmetry; rewrite Z.gtb_ltb; apply Z.ltb_ge; lia).
      replace (target_of raw <? fan_speed st) with true
        by (symmetry; apply Z.ltb_lt; lia).
      replace (slow_down_interval_count st <? 0) with false
        by (symmetry; apply Z.ltb_ge; lia).
      replace (slow_down_interval_count st >=? 0) with true
        by (symmetry; apply Z.geb_le; lia).
      reflexivity. }
    pose proof (loop_body_entered st raw tr) as He. rewrite Hna in He.
    rewrite app_nil_r in He.
    pose proof (loop_body_invocations st raw tr Hna) as Hi.
    rewrite Hst.
    destruct (IH {| fan_speed := fan_speed st;
                    slow_down_interval_count :=
                      slow_down_interval_count st - 1 |}
                 (snd (loop_body st raw tr))) as (I1 & I2 & I3 & I4).
    { exact Hlow. }
    { cbn [slow_down_interval_count]. lia. }
    cbn [fan_speed slow_down_interval_count] in *.
    rewrite I1, I3, I4, He, Hi. repeat split.
    + f_equal. cbn [List.length]. lia.
    + constructor; [reflexivity | exact I2].
Qed.

(** Once the countdown is negative, a lower target is applied at once. *)
Lemma slow_down_due (st : loop_state) (raw : string) (tr : trace) :
  target_of raw < fan_speed st ->
  slow_down_interval_count st < 0 ->
  fst (loop_body st raw tr) =
    {| fan_speed := target_of raw;
       slow_down_interval_count := SLOW_DOWN_INTERVAL_COUNT |} /\
  entered (snd (loop_body st raw tr)) = entered tr ++ [target_of raw].
Proof.
  intros Hlow Hneg.
  assert (Ha : applies st (target_of raw) = true).
  { unfold applies. apply orb_true_iff. right. apply andb_true_iff.
    split; apply Z.ltb_lt; lia. }
  split; [now apply loop_body_applied |].
  now rewrite loop_body_entered, Ha.
Qed.

(** Runs one tick of a run whose next target is known, and evaluates the
    branch taken. *)
Ltac tick H :=
  rewrite main_loop_from_cons; cbv zeta; cbn [fst snd];
  rewrite loop_body_state, H;
  cbn -[main_loop_from loop_body target_of].

Ltac tick_entered H :=
  rewrite ?main_loop_from_nil; cbn [snd];
  rewrite loop_body_entered, H;
  cbn -[main_loop_from loop_body target_of entered];
  rewrite ?app_nil_r.

(** C2 (as the code behaves): from speed 32 with a countdown of 3, sensor
    texts whose targets are 32, 20, 20, 20, 20, 20 leave the speeds
    32, 32, 32, 32, 32, 20.  The countdown takes four lower-target ticks to
    go from 3 to -1; the BMC operation is first called, with 20, on the
    fifth lower-target tick, and on no tick before it. *)
Theorem slow_down_applied_once_countdown_negative
  (raws : list string) (tr : trace) :
  SLOW_DOWN_INTERVAL_COUNT = 3 ->
  map target_of raws = [32; 20; 20; 20; 20; 20] ->
  let st := {| fan_speed := 32; slow_down_interval_count := 3 |} in
  let r := main_loop_from st raws tr in
  map fan_speed (fst r) = [32; 32; 32; 32; 32; 20] /\
  map slow_down_interval_count (fst r) = [3; 2; 1; 0; -1; 3] /\
  entered (snd (main_loop_from st (firstn 5 raws) tr)) = entered tr /\
  entered (snd r) = entered tr ++ [20].
Proof.
  intros HN Hmap.
  destruct raws as [| r1 [| r2 [| r3 [| r4 [| r5 [| r6 [| r7 raws]]]]]]];
    try discriminate Hmap.
  injection Hmap as H1 H2 H3 H4 H5 H6.
  cbv zeta. cbn [firstn].
  repeat split.
  - tick H1. tick H2. tick H3. tick H4. tick H5. tick H6. now rewrite HN.
  - tick H1. tick H2. tick H3. tick H4. tick H5. tick H6. now rewrite HN.
  - tick H1. tick H2. tick H3. tick H4. tick H5.
    tick_entered H5. tick_entered H4. tick_entered H3. tick_entered H2.
    tick_entered H1. reflexivity.
  - tick H1. tick H2. tick H3. tick H4. tick H5. tick H6.
    tick_entered H6. tick_entered H5. tick_entered H4. tick_entered H3.
    tick_entered H2. tick_entered H1. reflexivity.
Qed.

(** C3: a tick that applies a change (a speed-up, or a slow-down whose
    countdown is negative) stores the target as the current speed, resets
    the countdown and calls the BMC operation with the target, whatever the
    commands answer; hence in every reachable configuration the current
    speed is the argument of the latest call of the BMC operation, or the
    default when there was none. *)
Theorem fan_speed_is_last_requested :
  (forall (st : loop_state) (raw : string) (tr : trace),
     applies st (target_of raw) = true ->
     fst (loop_body st raw tr) =
       {| fan_speed := target_of raw;
          slow_down_interval_count := SLOW_DOWN_INTERVAL_COUNT |} /\
     entered (snd (loop_body st raw tr)) = entered tr ++ [target_of raw]) /\
  (forall (st : loop_state) (tr : trace),
     reachable st tr ->
     fan_speed st = last (entered tr) DEFAULT_FAN_SPEED).
Proof.
  split.
  - intros st raw tr Ha. split; [now apply loop_body_applied |].
    now rewrite loop_body_entered, Ha.
  - induction 1 as [| st tr raw Hr IH]; [reflexivity |].
    rewrite loop_body_entered.
    destruct (applies st (target_of raw)) eqn:Ha.
    + rewrite loop_body_applied by exact Ha. now rewrite last_last.
    + destruct (loop_body_not_applied st raw tr Ha) as [Hf _].
      now rewrite Hf, app_nil_r.
Qed.

(** C5: a tick whose target equals the current speed leaves the state as it
    is, runs no command and does not call the BMC operation; so does any
    number of such ticks in a row. *)
Theorem equal_target_ticks_change_nothing
  (st : loop_state) (raws : list string) (tr : trace) :
  Forall (fun raw => target_of raw = fan_speed st) raws ->
  let r := main_loop_from st raws tr in
  Forall (fun s => s = st) (fst r) /\
  invocations (snd r) = invocations tr /\
  entered (snd r) = entered tr.
Proof.
  revert tr. induction raws as [| raw raws IH]; intros tr Heq.
  - repeat split. constructor.
  - apply Forall_cons_iff in Heq. destruct Heq as [Hraw Heq].
    cbv zeta. rewrite main_loop_from_cons. cbv zeta. cbn [fst snd].
    assert (Hna : applies st (target_of raw) = false).
    { unfold applies. rewrite Hraw, Z.gtb_ltb, Z.ltb_irrefl. reflexivity. }
    assert (Hst : fst (loop_body st raw tr) = st).
    { rewrite loop_body_state. cbv zeta.
      now rewrite Hraw, Z.gtb_ltb, Z.ltb_irrefl. }
    pose proof (loop_body_entered st raw tr) as He. rewrite Hna in He.
    rewrite app_nil_r in He.
    pose proof (loop_body_invocations st raw tr Hna) as Hi.
    rewrite Hst.
    destruct (IH (snd (loop_body st raw tr)) Heq) as (I1 & I2 & I3).
    rewrite I2, I3, He, Hi. repeat split.
    constructor; [reflexivity | exact I1].
Qed.

(** C6: a tick whose target exceeds the current speed sets the countdown
    back to [SLOW_DOWN_INTERVAL_COUNT].  With a countdown of 3 and speed 32,
    targets 32, 20, 20, 48, 20, 20, 20, 20 give the speeds
    32, 32, 32, 48, 48, 48, 48, 48 and the countdowns 3, 2, 1, 3, 2, 1, 0, -1:
    the two lower ticks before the speed-up are forgotten, and none of the
    four lower-target ticks after it brings the speed back to 20; a further
    lower-target tick would. *)
Theorem speed_up_resets_countdown :
  (forall (st : loop_state) (raw : string) (tr : trace),
     target_of raw > fan_speed st ->
     fst (loop_body st raw tr) =
       {| fan_speed := target_of raw;
          slow_down_interval_count := SLOW_DOWN_INTERVAL_COUNT |}) /\
  (forall (raws : list string) (tr : trace),
     SLOW_DOWN_INTERVAL_COUNT = 3 ->
     map target_of raws = [32; 20; 20; 48; 20; 20; 20; 20] ->
     let st := {| fan_speed := 32; slow_down_interval_count := 3 |} in
     let r := main_loop_from st raws tr in
     map fan_speed (fst r) = [32; 32; 32; 48; 48; 48; 48; 48] /\
     map slow_down_interval_count (fst r) = [3; 2; 1; 3; 2; 1; 0; -1] /\
     entered (snd r) = entered tr ++ [48] /\
     (forall raw : string,
        target_of raw = 20 ->
        fst (loop_body (last (fst r) st) raw (snd r)) =
          {| fan_speed := 20; slow_down_interval_count := 3 |})).
Proof.
  split.
  - intros st raw tr Hup. apply loop_body_applied.
    unfold applies. apply orb_true_iff. left.
    rewrite Z.gtb_ltb. apply Z.ltb_lt. lia.
  - intros raws tr HN Hmap.
    destruct raws
      as [| r1 [| r2 [| r3 [| r4 [| r5 [| r6 [| r7 [| r8 [| r9 raws]]]]]]]]];
      try discriminate Hmap.
    injection Hmap as H1 H2 H3 H4 H5 H6 H7 H8.
    cbv zeta. repeat split.
    + tick H1. tick H2. tick H3. tick H4. rewrite HN.
      tick H5. tick H6. tick H7. tick H8. reflexivity.
    + tick H1. tick H2. tick H3. tick H4. rewrite HN.
      tick H5. tick H6. tick H7. tick H8. reflexivity.
    + tick H1. tick H2. tick H3. tick H4. rewrite HN.
      tick H5. tick H6. tick H7. tick H8.
      tick_entered H8. tick_entered H7. tick_entered H6. tick_entered H5.
      tick_entered H4. tick_entered H3. tick_entered H2. tick_entered H1.
      reflexivity.
    + tick H1. tick H2. tick H3. tick H4. rewrite HN.
      tick H5. tick H6. tick H7. tick H8.
      rewrite main_loop_from_nil. cbn [fst snd last].
      intros raw Hraw. rewrite loop_body_state, Hraw, HN. reflexivity.
Qed.

(** C9: with a threshold [SLOW_DOWN_INTERVAL_COUNT] of at least zero, the
    countdown of every reachable state lies between -1 and the threshold. *)
Theorem slow_down_interval_count_range (st : loop_state) (tr : trace) :
  0 <= SLOW_DOWN_INTERVAL_COUNT ->
  reachable st tr ->
  -1 <= slow_down_interval_count st <= SLOW_DOWN_INTERVAL_COUNT.
Proof.
  intros HN. induction 1 as [| st tr raw Hr IH].
  - simpl. lia.
  - destruct (applies st (target_of raw)) eqn:Ha.
    + rewrite loop_body_applied by exact Ha. simpl. lia.
    + destruct (loop_body_not_applied st raw tr Ha) as [_ [Hc | [H0 Hc]]];
        rewrite Hc; lia.
Qed.

(** C10: the current speed of every reachable state is the default or one
    of the four values of the curve, 20, 32, 48 and 64. *)
Theorem fan_speed_default_or_curve (st : loop_state) (tr : trace) :
  reachable st tr ->
  fan_speed st = DEFAULT_FAN_SPEED \/ In (fan_speed st) [20; 32; 48; 64].
Proof.
  induction 1 as [| st tr raw Hr IH].
  - now left.
  - destruct (applies st (target_of raw)) eqn:Ha.
    + right. rewrite loop_body_applied by exact Ha. apply target_of_image.
    + destruct (loop_body_not_applied st raw tr Ha) as [Hf _].
      now rewrite Hf.
Qed.

(** ** Further properties of the curve and the BMC operation *)

(** X1: the curve as the code computes it, for every reading.  Readings of
    zero and below share the band of 32 with 50000..60999; only the last
    band, and the infinite reading, log the warning. *)
Theorem temp_fan_speed_curve_table (z : Z) (tr : trace) :
  (0 < z < 50000 -> temp_fan_speed_curve (Millideg z) tr = (20, tr)) /\
  (z <= 0 \/ 50000 <= z < 61000 ->
   temp_fan_speed_curve (Millideg z) tr = (32, tr)) /\
  (61000 <= z < 66000 -> temp_fan_speed_curve (Millideg z) tr = (48, tr)) /\
  (66000 <= z ->
   temp_fan_speed_curve (Millideg z) tr =
     (64, tr ++ [Log WARNING (msg_exceed_normal_range (Millideg z))])) /\
  temp_fan_speed_curve PosInf tr =
    (64, tr ++ [Log WARNING (msg_exceed_normal_range PosInf)]).
Proof.
  rewrite !temp_fan_speed_curve_bands.
  destruct (Z.ltb_spec 0 z), (Z.ltb_spec z 50000), (Z.ltb_spec z 61000),
    (Z.ltb_spec z 66000); simpl;
    repeat split; intros; solve [reflexivity | lia].
Qed.

(** X2: above zero the curve never asks for less when the reading is
    higher, and no integer reading, of either sign, asks for more than the
    infinite one, which asks for 64.  Across zero the order fails: a reading
    of 0 asks for more than a reading of 1. *)
Theorem temp_fan_speed_curve_monotone :
  (forall (z1 z2 : Z) (tr1 tr2 : trace),
     0 < z1 <= z2 ->
     fst (temp_fan_speed_curve (Millideg z1) tr1)
       <= fst (temp_fan_speed_curve (Millideg z2) tr2)) /\
  (forall (z : Z) (tr1 tr2 : trace),
     fst (temp_fan_speed_curve (Millideg z) tr1)
       <= fst (temp_fan_speed_curve PosInf tr2)) /\
  (forall tr : trace, fst (temp_fan_speed_curve PosInf tr) = 64) /\
  (forall tr1 tr2 : trace,
     fst (temp_fan_speed_curve (Millideg 1) tr1)
       < fst (temp_fan_speed_curve (Millideg 0) tr2)).
Proof.
  split; [| split; [| split]].
  - intros z1 z2 tr1 tr2 Hz. rewrite !temp_fan_speed_curve_bands.
    destruct (Z.ltb_spec 0 z1), (Z.ltb_spec z1 50000),
      (Z.ltb_spec z1 61000), (Z.ltb_spec z1 66000), (Z.ltb_spec 0 z2),
      (Z.ltb_spec z2 50000), (Z.ltb_spec z2 61000), (Z.ltb_spec z2 66000);
      simpl; lia.
  - intros z tr1 tr2. rewrite !temp_fan_speed_curve_bands.
    destruct ((0 <? z) && (z <? 50000)), (z <? 61000), (z <? 66000);
      simpl; lia.
  - reflexivity.
  - intros tr1 tr2. simpl. lia.
Qed.


(** X4: the speed on the command line.  Every speed command a call adds to
    the history carries a speed of at most [MAX_FAN_SPEED]: the argument
    itself when that lies between [DEFAULT_FAN_SPEED] and [MAX_FAN_SPEED],
    and [MAX_FAN_SPEED] otherwise. *)
Theorem ipmitool_set_fan_speed_level (fan_speed level : Z) (o : outcome)
  (tr : trace) :
  In (set_fans_speed level, o)
     (invocations (snd (ipmitool_set_fan_speed fan_speed tr))) ->
  In (set_fans_speed level, o) (invocations tr) \/
  (level <= MAX_FAN_SPEED /\
   (DEFAULT_FAN_SPEED <= fan_speed <= MAX_FAN_SPEED -> level = fan_speed) /\
   (fan_speed > MAX_FAN_SPEED \/ fan_speed < DEFAULT_FAN_SPEED ->
    level = MAX_FAN_SPEED)).
Proof.
  destruct (ipmitool_set_fan_speed_run fan_speed tr) as [_ Hi].
  cbv zeta in Hi. rewrite Hi. clear Hi.
  intros Hin. apply in_app_or in Hin. destruct Hin as [Hin | Hin];
    [now left | right].
  assert (Hl : level = if (fan_speed >? MAX_FAN_SPEED)
                          || (fan_speed <? DEFAULT_FAN_SPEED)
                       then MAX_FAN_SPEED else fan_speed).
  { destruct (check_call (invocations tr) enable_manual_speed_set);
      simpl in Hin; intuition congruence. }
  clear Hin. rewrite Hl. unfold MAX_FAN_SPEED in *.
  destruct (Z.gtb_spec fan_speed 64), (Z.ltb_spec fan_speed DEFAULT_FAN_SPEED);
    simpl; repeat split; intros; lia.
Qed.

(** ** Further properties of the control loop *)

(** The commands one tick runs, from the answers of the outside world. *)
Lemma loop_body_commands (st : loop_state) (raw : string) (tr : trace) :
  let new := target_of raw in
  let level :=
    if (new >? MAX_FAN_SPEED) || (new <? DEFAULT_FAN_SPEED)
    then MAX_FAN_SPEED else new in
  let a := check_call (invocations tr) enable_manual_speed_set in
  let b := check_call (invocations tr ++ [(enable_manual_speed_set, a)])
             (set_fans_speed level) in
  invocations (snd (loop_body st raw tr)) =
    invocations tr ++
      (if applies st new then
         match a with
         | Returned =>
             [(enable_manual_speed_set, a); (set_fans_speed level, b)]
         | _ => [(enable_manual_speed_set, a)]
         end
       else []).
Proof.
  cbv zeta. destruct (applies st (target_of raw)) eqn:Ha.
  2: { rewrite loop_body_invocations by exact Ha. now rewrite app_nil_r. }
  destruct (loop_body_read st raw) as (temp & evs & [Hi _] & H). rewrite H.
  clear H. cbv zeta. unfold applies in Ha. unfold bind, log, emit, ret.
  assert (G : forall msg,
             invocations
               (snd (ipmitool_set_fan_speed (target_of raw)
                       ((tr ++ evs) ++ [Log INFO msg]))) =
             invocations tr ++
               match check_call (invocations tr) enable_manual_speed_set with
               | Returned =>
                   [(enable_manual_speed_set,
                     check_call (invocations tr) enable_manual_speed_set);
                    (set_fans_speed
                       (if (target_of raw >? MAX_FAN_SPEED)
                           || (target_of raw <? DEFAULT_FAN_SPEED)
                        then MAX_FAN_SPEED else target_of raw),
                     check_call
                       (invocations tr ++
                          [(enable_manual_speed_set,
                            check_call (invocations tr)
                              enable_manual_speed_set)])
                       (set_fans_speed
                          (if (target_of raw >? MAX_FAN_SPEED)
                              || (target_of raw <? DEFAULT_FAN_SPEED)
                           then MAX_FAN_SPEED else target_of raw)))]
               | _ =>
                   [(enable_manual_speed_set,
                     check_call (invocations tr) enable_manual_speed_set)]
               end).
  { intros msg.
    destruct (ipmitool_set_fan_speed_run (target_of raw)
                ((tr ++ evs) ++ [Log INFO msg])) as [_ Hrun].
    cbv zeta in Hrun. rewrite Hrun, !invocations_app, Hi. simpl.
    now rewrite !app_nil_r. }
  destruct (target_of raw >? fan_speed st); simpl in Ha |- *.
  { specialize (G (msg_speed_up temp (fan_speed st) (target_of raw))).
    now destruct (ipmitool_set_fan_speed _ _). }
  rewrite Ha.
  specialize (G (msg_slow_down temp (fan_speed st) (target_of raw))).
  now destruct (ipmitool_set_fan_speed _ _).
Qed.

(** A lower target met with a countdown of zero or more only takes one off
    the countdown. *)
Lemma slow_down_wait (st : loop_state) (raw : string) (tr : trace) :
  target_of raw < fan_speed st ->
  0 <= slow_down_interval_count st ->
  fst (loop_body st raw tr) =
    {| fan_speed := fan_speed st;
       slow_down_interval_count := slow_down_interval_count st - 1 |} /\
  invocations (snd (loop_body st raw tr)) = invocations tr /\
  entered (snd (loop_body st raw tr)) = entered tr.
Proof.
  intros Hlow Hc.
  assert (Hna : applies st (target_of raw) = false).
  { unfold applies. apply orb_false_iff. split.
    - rewrite Z.gtb_ltb. apply Z.ltb_ge. lia.
    - apply andb_false_iff. right. apply Z.ltb_ge. lia. }
  split; [| split].
  - rewrite loop_body_state. cbv zeta.
    replace (target_of raw >? fan_speed st) with false
      by (symmetry; rewrite Z.gtb_ltb; apply Z.ltb_ge; lia).
    replace (target_of raw <? fan_speed st) with true
      by (symmetry; apply Z.ltb_lt; lia).
    replace (slow_down_interval_count st <? 0) with false
      by (symmetry; apply Z.ltb_ge; lia).
    replace (slow_down_interval_count st >=? 0) with true
      by (symmetry; apply Z.geb_le; lia).
    reflexivity.
  - now apply loop_body_invocations.
  - now rewrite loop_body_entered, Hna, app_nil_r.
Qed.

(** X5: how long a slow-down waits, for any countdown.  From a countdown
    [c], lower targets in a row change neither the speed nor the command
    history as long as there are at most [c + 1] of them; the next lower
    target is applied at once when exactly [c + 1] came before it, and only
    takes one more off the countdown otherwise. *)
Theorem slow_down_applied_after_countdown
  (raws : list string) (raw : string) (st : loop_state) (tr : trace) :
  Forall (fun raw => target_of raw < fan_speed st) raws ->
  target_of raw < fan_speed st ->
  Z.of_nat (List.length raws) <= slow_down_interval_count st + 1 ->
  let r := main_loop_from st raws tr in
  let r' := loop_body (last (fst r) st) raw (snd r) in
  Forall (fun s => fan_speed s = fan_speed st) (fst r) /\
  invocations (snd r) = invocations tr /\
  entered (snd r) = entered tr /\
  if Z.of_nat (List.length raws) =? slow_down_interval_count st + 1 then
    fst r' = {| fan_speed := target_of raw;
                slow_down_interval_count := SLOW_DOWN_INTERVAL_COUNT |} /\
    entered (snd r') = entered tr ++ [target_of raw]
  else
    fst r' = {| fan_speed := fan_speed st;
                slow_down_interval_count :=
                  slow_down_interval_count st
                  - Z.of_nat (List.length raws) - 1 |} /\
    invocations (snd r') = invocations tr /\
    entered (snd r') = entered tr.
Proof.
  intros Hlow Hraw Hlen. cbv zeta.
  destruct (slow_down_deferred raws st tr Hlow Hlen) as (L & F & E & I).
  cbv zeta in L, F, E, I. rewrite L.
  split; [exact F |]. split; [exact I |]. split; [exact E |].
  destruct (Z.eqb_spec (Z.of_nat (List.length raws))
              (slow_down_interval_count st + 1)) as [Heq | Hne].
  - destruct (slow_down_due
                {| fan_speed := fan_speed st;
                   slow_down_interval_count :=
                     slow_down_interval_count st
                     - Z.of_nat (List.length raws) |}
                raw (snd (main_loop_from st raws tr))) as [D1 D2].
    + exact Hraw.
    + cbn [slow_down_interval_count]. lia.
    + rewrite D1, D2, E. now split.
  - destruct (slow_down_wait
                {| fan_speed := fan_speed st;
                   slow_down_interval_count :=
                     slow_down_interval_count st
                     - Z.of_nat (List.length raws) |}
                raw (snd (main_loop_from st raws tr))) as (W1 & W2 & W3).
    + exact Hraw.
    + cbn [slow_down_interval_count]. lia.
    + rewrite W1, W2, W3, E, I. now repeat split.
Qed.

(** X6: the current speed changes only on a tick that calls the BMC
    operation, and then becomes the argument of that call; it goes down only
    on a tick that found the countdown negative. *)
Theorem fan_speed_changes_only_when_applied
  (st : loop_state) (raw : string) (tr : trace) :
  let r := loop_body st raw tr in
  fan_speed (fst r) <> fan_speed st ->
  fan_speed (fst r) = target_of raw /\
  entered (snd r) = entered tr ++ [target_of raw] /\
  (fan_speed (fst r) < fan_speed st -> slow_down_interval_count st < 0).
Proof.
  cbv zeta. intros Hch.
  destruct (applies st (target_of raw)) eqn:Ha.
  - rewrite loop_body_entered, Ha, loop_body_applied by exact Ha.
    repeat split. cbn [fan_speed]. intros Hlt.
    unfold applies in Ha. apply orb_true_iff in Ha.
    destruct Ha as [Ha | Ha].
    + rewrite Z.gtb_ltb in Ha. apply Z.ltb_lt in Ha. lia.
    + apply andb_true_iff in Ha. destruct Ha as [_ Ha].
      now apply Z.ltb_lt in Ha.
  - destruct (loop_body_not_applied st raw tr Ha) as [Hf _]. congruence.
Qed.

(** X7: a tick runs at most two commands, none at all unless it applies a
    change, and at least one when it does. *)
Theorem loop_body_command_count (st : loop_state) (raw : string) (tr : trace) :
  let n := List.length (invocations tr) in
  let n' := List.length (invocations (snd (loop_body st raw tr))) in
  (n <= n' <= n + 2)%nat /\
  (n' = n <-> applies st (target_of raw) = false).
Proof.
  cbv zeta. rewrite loop_body_commands. cbv zeta.
  rewrite length_app.
  destruct (applies st (target_of raw));
    [destruct (check_call (invocations tr) enable_manual_speed_set) |];
    simpl; split; try lia; split; intros; try discriminate; lia.
Qed.

(** X14: after a tick the current speed is never below what the curve
    asked for on that tick, whatever the state and the countdown were:
    raising the speed is never put off. *)
Theorem fan_speed_at_least_target
  (st : loop_state) (raw : string) (tr : trace) :
  target_of raw <= fan_speed (fst (loop_body st raw tr)).
Proof.
  rewrite loop_body_state. cbv zeta.
  destruct (Z.gtb_spec (target_of raw) (fan_speed st)); [simpl; lia |].
  destruct ((target_of raw <? fan_speed st)
            && (slow_down_interval_count st <? 0)); [simpl; lia |].
  destruct ((target_of raw <? fan_speed st)
            && (slow_down_interval_count st >=? 0)); simpl; lia.
Qed.

Lemma paired_app (l1 l2 : list (command * outcome)) :
  paired l1 -> paired l2 -> paired (l1 ++ l2).
Proof.
  induction 1 as [| o l Ho Hl IH | v o l Hv Hl IH]; intros H2; simpl.
  - exact H2.
  - apply paired_refused; auto.
  - apply paired_set; auto.
Qed.

(** X8: in every reachable configuration the command history is made of
    complete calls: a speed command is only ever run right after manual mode
    was enabled successfully, it carries one of the speeds 20, 32, 48, 64,
    and after a failure to enable manual mode the next command, if any,
    enables manual mode again. *)
Theorem reachable_invocations_paired (st : loop_state) (tr : trace) :
  reachable st tr -> paired (invocations tr).
Proof.
  induction 1 as [| st tr raw Hr IH]; [constructor |].
  rewrite loop_body_commands. cbv zeta. apply paired_app; [exact IH |].
  destruct (applies st (target_of raw)); [| constructor].
  destruct (check_call (invocations tr) enable_manual_speed_set) eqn:Ea.
  - apply paired_set; [| constructor].
    pose proof (target_of_image raw) as Him.
    destruct ((target_of raw >? MAX_FAN_SPEED)
              || (target_of raw <? DEFAULT_FAN_SPEED)); [| exact Him].
    simpl. tauto.
  - apply paired_refused; [discriminate | constructor].
  - apply paired_refused; [discriminate | constructor].
Qed.

(** ** Start-up and command lines *)

Lemma getenv_int_none (env : string -> option string) (name : string)
  (default : Z) :
  getenv_int env name default = None <->
  exists text, env name = Some text /\ py_int text = None.
Proof.
  unfold getenv_int. destruct (env name) as [text |].
  - split.
    + intros H. now exists text.
    + intros (text' & [= <-] & H). exact H.
  - split; [discriminate | intros (text & [=] & _)].
Qed.

(** X9: binding the settings fails exactly when one of the four integer
    variables is set to a text that [int] rejects.  A variable that is not
    set never makes it fail, and the three text variables never do. *)
Theorem load_config_none_iff (env : string -> option string) :
  load_config env = None <->
  exists name text,
    In name ["DEFAULT_FAN_SPEED"; "INTERVAL"; "SLOW_DOWN_INTERVAL_COUNT";
             "CMD_TIMEOUT"]%string /\
    env name = Some text /\ py_int text = None.
Proof.
  split.
  - unfold load_config. intros H.
    destruct (getenv_int env "DEFAULT_FAN_SPEED" 20) eqn:E1.
    2: { apply getenv_int_none in E1. destruct E1 as (text & E & P).
         exists "DEFAULT_FAN_SPEED"%string, text. simpl. tauto. }
    destruct (getenv_int env "INTERVAL" 6) eqn:E2.
    2: { apply getenv_int_none in E2. destruct E2 as (text & E & P).
         exists "INTERVAL"%string, text. simpl. tauto. }
    destruct (getenv_int env "SLOW_DOWN_INTERVAL_COUNT" 3) eqn:E3.
    2: { apply getenv_int_none in E3. destruct E3 as (text & E & P).
         exists "SLOW_DOWN_INTERVAL_COUNT"%string, text. simpl. tauto. }
    destruct (getenv_int env "CMD_TIMEOUT" 3) eqn:E4.
    2: { apply getenv_int_none in E4. destruct E4 as (text & E & P).
         exists "CMD_TIMEOUT"%string, text. simpl. tauto. }
    discriminate H.
  - intros (name & text & Hin & E & P).
    assert (G : getenv_int env name 20 = None
                /\ getenv_int env name 6 = None
                /\ getenv_int env name 3 = None).
    { repeat split; apply getenv_int_none; now exists text. }
    destruct G as (G20 & G6 & G3).
    unfold load_config.
    simpl in Hin. destruct Hin as [<- | [<- | [<- | [<- | []]]]].
    + now rewrite G20.
    + rewrite G6. now destruct (getenv_int env "DEFAULT_FAN_SPEED" 20).
    + rewrite G3.
      now destruct (getenv_int env "DEFAULT_FAN_SPEED" 20),
        (getenv_int env "INTERVAL" 6).
    + rewrite G3.
      now destruct (getenv_int env "DEFAULT_FAN_SPEED" 20),
        (getenv_int env "INTERVAL" 6),
        (getenv_int env "SLOW_DOWN_INTERVAL_COUNT" 3).
Qed.

(** X10: with none of the seven variables set, the settings are the
    defaults written in the source, whatever else the environment holds:
    speed 20, interval 6, threshold 3, timeout 3, empty credentials, and a
    command prefix that passes them empty. *)
Theorem load_config_defaults (env : string -> option string) :
  Forall (fun name => env name = None)
    ["DEFAULT_FAN_SPEED"; "INTERVAL"; "SLOW_DOWN_INTERVAL_COUNT";
     "CMD_TIMEOUT"; "IPMI_USER"; "IPMI_PASSWD"; "IPMI_TOOL_PATH"]%string ->
  load_config env =
    Some {| cfg_DEFAULT_FAN_SPEED := 20;
            cfg_INTERVAL := 6;
            cfg_SLOW_DOWN_INTERVAL_COUNT := 3;
            cfg_CMD_TIMEOUT := 3;
            cfg_IPMI_USER := "";
            cfg_IPMI_PASSWD := "";
            cfg_IPMI_TOOL_PATH := "ipmitool";
            cfg_IPMI_CMD := "ipmitool -U  -P  " |}.
Proof.
  intros H. repeat (apply Forall_cons_iff in H; destruct H as [?E H]).
  unfold load_config, getenv_int, getenv_str.
  now rewrite E, E0, E1, E2, E3, E4, E5.
Qed.

(** X11: how the script starts.  Settings that cannot be bound end it with
    [EINVAL] whoever runs it; with the settings bound, any user but root is
    turned away with [EPERM]; [main_loop] is entered exactly when the
    settings are bound and the user is root. *)
Theorem script_status (env : string -> option string) (uid : Z) :
  (script env uid = Exit EINVAL log_failed_to_parse_config <->
   load_config env = None) /\
  (script env uid = Exit EPERM log_should_be_run_as_root <->
   load_config env <> None /\ uid <> 0) /\
  (forall cfg,
     script env uid = Enter_main_loop cfg <->
     load_config env = Some cfg /\ uid = 0).
Proof.
  unfold script. destruct (load_config env) as [cfg |].
  - destruct (Z.eqb_spec uid 0) as [-> | Hne]; simpl.
    + split; [| split].
      * split; discriminate.
      * split; [discriminate | intros [_ H]; now contradiction H].
      * intros cfg0. split.
        -- intros [= ->]. now split.
        -- intros [[= ->] _]. reflexivity.
    + split; [| split].
      * split; discriminate.
      * split; [intros _; split; [discriminate | exact Hne] | reflexivity].
      * intros cfg0. split; [discriminate | intros [_ H]; contradiction].
  - split; [| split].
    + split; reflexivity.
    + split; [discriminate | intros [H _]; now contradiction H].
    + intros cfg0. split; [discriminate | intros [H _]; discriminate].
Qed.

Lemma append_cancel_l (s a b : string) :
  (s ++ a)%string = (s ++ b)%string -> a = b.
Proof.
  induction s as [| c s IH]; simpl; [auto |].
  intros [= H]. auto.
Qed.

Lemma str_int_inj (z1 z2 : Z) : str_int z1 = str_int z2 -> z1 = z2.
Proof.
  unfold str_int. intros H.
  assert (R : forall z,
             NilZero.int_of_string (NilZero.string_of_int (Z.to_int z))
               = Some (Z.to_int z)).
  { intros z. apply NilZero.isi; destruct z; simpl; try discriminate;
      intros [= E]; now apply Unsigned.to_uint_nonnil in E. }
  apply (f_equal NilZero.int_of_string) in H. rewrite !R in H.
  injection H as H. now apply DecimalZ.to_int_inj.
Qed.

(** X12: a command line names its command.  With the same prefix
    [IPMI_CMD], the line that enables manual mode differs from every line
    that sets a speed, and two lines that set a speed are equal only for the
    same speed. *)
Theorem command_text_inj (IPMI_CMD : string) (cmd1 cmd2 : command) :
  command_text IPMI_CMD cmd1 = command_text IPMI_CMD cmd2 -> cmd1 = cmd2.
Proof.
  destruct cmd1 as [| v1], cmd2 as [| v2]; simpl; intros H;
    apply append_cancel_l in H.
  - reflexivity.
  - discriminate H.
  - discriminate H.
  - change (" raw 0x30 0x30 0x02 0xff 0x" ++ str_int v1
            = " raw 0x30 0x30 0x02 0xff 0x" ++ str_int v2)%string in H.
    apply append_cancel_l in H. now rewrite (str_int_inj _ _ H).
Qed.

End Fansd.

(** X13: the loop never looks at what the BMC answered.  Run on the same
    sensor texts against two outside worlds, it goes through the same states,
    and it calls the BMC operation with the same speeds in the same order. *)
Theorem main_loop_ignores_bmc_answers
  (DEFAULT_FAN_SPEED SLOW_DOWN_INTERVAL_COUNT : Z)
  (py_int : string -> option Z)
  (world1 world2 : list (command * outcome) -> command -> outcome)
  (raws : list string) (st : loop_state) (tr1 tr2 : trace) :
  let r1 := main_loop_from DEFAULT_FAN_SPEED SLOW_DOWN_INTERVAL_COUNT py_int
              world1 st raws tr1 in
  let r2 := main_loop_from DEFAULT_FAN_SPEED SLOW_DOWN_INTERVAL_COUNT py_int
              world2 st raws tr2 in
  fst r1 = fst r2 /\
  (entered tr1 = entered tr2 -> entered (snd r1) = entered (snd r2)).
Proof.
  cbv zeta. revert st tr1 tr2.
  induction raws as [| raw raws IH]; intros st tr1 tr2.
  - now split.
  - rewrite !main_loop_from_cons. cbv zeta. cbn [fst snd].
    assert (Hs : fst (loop_body DEFAULT_FAN_SPEED SLOW_DOWN_INTERVAL_COUNT
                        py_int world1 st raw tr1)
                 = fst (loop_body DEFAULT_FAN_SPEED SLOW_DOWN_INTERVAL_COUNT
                          py_int world2 st raw tr2))
      by now rewrite !loop_body_state.
    rewrite Hs.
    destruct (IH (fst (loop_body DEFAULT_FAN_SPEED SLOW_DOWN_INTERVAL_COUNT
                         py_int world2 st raw tr2))
                 (snd (loop_body DEFAULT_FAN_SPEED SLOW_DOWN_INTERVAL_COUNT
                         py_int world1 st raw tr1))
                 (snd (loop_body DEFAULT_FAN_SPEED SLOW_DOWN_INTERVAL_COUNT
                         py_int world2 st raw tr2))) as [IH1 IH2].
    split.
    + now rewrite IH1.
    + intros He. apply IH2. rewrite !loop_body_entered. now rewrite He.
Qed.

(** ** The theorems at concrete inputs

    Default speed 20, threshold 3, sensor texts read as decimal numbers. *)

Local Open Scope string_scope.

(** C2 (as the claim states it, refuted): with targets 32, 20, 20, 20, 20
    from speed 32 and countdown 3, the speed is still 32 after each of the
    five ticks and the BMC operation has not been called: the countdown only
    reaches -1 on the fifth tick.  The speeds are not 32, 32, 32, 20,
    whichever four ticks of the five one reads them off. *)
Lemma slow_down_not_applied_on_4th_tick :
  let raws := ["55000"; "40000"; "40000"; "40000"; "40000"] in
  let st := {| fan_speed := 32; slow_down_interval_count := 3 |} in
  let r := main_loop_from 20 3 decimal_int bmc_ok st raws [] in
  map (target_of decimal_int) raws = [32; 20; 20; 20; 20] /\
  map fan_speed (fst r) = [32; 32; 32; 32; 32] /\
  map slow_down_interval_count (fst r) = [3; 2; 1; 0; -1] /\
  entered (snd r) = [] /\
  firstn 4 (map fan_speed (fst r)) <> [32; 32; 32; 20] /\
  skipn 1 (map fan_speed (fst r)) <> [32; 32; 32; 20].
Proof.
  cbv zeta. repeat split; try reflexivity; vm_compute; discriminate.
Qed.

(** The run of C2 with one more lower reading, on sensor texts. *)
Lemma slow_down_applied_once_countdown_negative_witness :
  let raws := ["55000"; "40000"; "40000"; "40000"; "40000"; "40000"] in
  let st := {| fan_speed := 32; slow_down_interval_count := 3 |} in
  let r := main_loop_from 20 3 decimal_int bmc_ok st raws [] in
  map (target_of decimal_int) raws = [32; 20; 20; 20; 20; 20] /\
  map fan_speed (fst r) = [32; 32; 32; 32; 32; 20] /\
  map slow_down_interval_count (fst r) = [3; 2; 1; 0; -1; 3] /\
  entered (snd (main_loop_from 20 3 decimal_int bmc_ok st (firstn 5 raws) []))
    = [] /\
  entered (snd r) = [20].
Proof.
  cbv zeta. split; [reflexivity |].
  apply (slow_down_applied_once_countdown_negative 20 3 decimal_int bmc_ok
           ["55000"; "40000"; "40000"; "40000"; "40000"; "40000"] []);
    reflexivity.
Defined.

(** A speed-up on a BMC that refuses every command: the state is updated all
    the same. *)
Lemma fan_speed_is_last_requested_witness :
  let r := loop_body 20 3 decimal_int bmc_down (initial_state 20 3)
             "70000" [] in
  applies (initial_state 20 3) (target_of decimal_int "70000") = true /\
  fst r = {| fan_speed := 64; slow_down_interval_count := 3 |} /\
  invocations (snd r) = [(enable_manual_speed_set, CalledProcessError)] /\
  reachable 20 3 decimal_int bmc_down (fst r) (snd r) /\
  fan_speed (fst r) = last (entered (snd r)) 20.
Proof.
  cbv zeta.
  destruct (fan_speed_is_last_requested 20 3 decimal_int bmc_down)
    as [Htick Hinv].
  split; [reflexivity |].
  split; [apply (Htick (initial_state 20 3) "70000" []); reflexivity |].
  split; [reflexivity |].
  assert (Hr : reachable 20 3 decimal_int bmc_down
                 (fst (loop_body 20 3 decimal_int bmc_down
                         (initial_state 20 3) "70000" []))
                 (snd (loop_body 20 3 decimal_int bmc_down
                         (initial_state 20 3) "70000" []))).
  { apply reachable_tick, reachable_start. }
  split; [exact Hr | exact (Hinv _ _ Hr)].
Defined.

(** A BMC that refuses manual mode, and one that times out on the speed
    command. *)
Lemma ipmitool_set_fan_speed_result_witness :
  (bmc_down [] enable_manual_speed_set <> Returned /\
   fst (ipmitool_set_fan_speed 20 bmc_down 32 []) = false /\
   invocations (snd (ipmitool_set_fan_speed 20 bmc_down 32 []))
     = [(enable_manual_speed_set, CalledProcessError)]) /\
  (bmc_hangs_on_set [] enable_manual_speed_set = Returned /\
   fst (ipmitool_set_fan_speed 20 bmc_hangs_on_set 32 []) = false /\
   invocations (snd (ipmitool_set_fan_speed 20 bmc_hangs_on_set 32 []))
     = [(enable_manual_speed_set, Returned);
        (set_fans_speed 32, TimeoutExpired)]).
Proof.
  split.
  - assert (Ha : bmc_down [] enable_manual_speed_set <> Returned)
      by discriminate.
    split; [exact Ha |].
    exact (proj1 (proj2 (ipmitool_set_fan_speed_result 20 bmc_down 32 []))
             Ha).
  - assert (Ha : bmc_hangs_on_set [] enable_manual_speed_set = Returned)
      by reflexivity.
    split; [exact Ha |].
    exact (proj2 (proj2
             (ipmitool_set_fan_speed_result 20 bmc_hangs_on_set 32 [])) Ha).
Defined.

(** A reading with a letter in it. *)
Lemma get_temp_unparsable_witness :
  decimal_int "4o000" = None /\
  get_temp decimal_int "4o000" [] =
    (PosInf, [Log WARNING (msg_not_valid_number "4o000")]) /\
  fst ((temp <- get_temp decimal_int "4o000" ;; temp_fan_speed_curve temp) [])
    = 64 /\
  target_of decimal_int "4o000" = 64.
Proof.
  split; [reflexivity |].
  apply (get_temp_unparsable decimal_int "4o000" []). reflexivity.
Defined.

(** A call with 5 against a call with 64, default speed 20, on a BMC that
    obeys. *)
Lemma ipmitool_set_fan_speed_out_of_range_witness :
  (5 > MAX_FAN_SPEED \/ 5 < 20) /\
  invocations (snd (ipmitool_set_fan_speed 20 bmc_ok 5 [])) =
    [(enable_manual_speed_set, Returned); (set_fans_speed 64, Returned)] /\
  fst (ipmitool_set_fan_speed 20 bmc_ok 5 []) = true /\
  fst (ipmitool_set_fan_speed 20 bmc_ok 5 [])
    = fst (ipmitool_set_fan_speed 20 bmc_ok 64 []) /\
  invocations (snd (ipmitool_set_fan_speed 20 bmc_ok 5 []))
    = invocations (snd (ipmitool_set_fan_speed 20 bmc_ok 64 [])).
Proof.
  assert (H : 5 > MAX_FAN_SPEED \/ 5 < 20) by (right; lia).
  split; [exact H |].
  destruct (proj1 (ipmitool_set_fan_speed_out_of_range 20 bmc_ok) 5 [] H)
    as (_ & I & R & E1 & E2).
  split; [exact I |]. split; [exact R |]. split; [exact E1 | exact E2].
Defined.

(** Three readings in the band of the current speed. *)
Lemma equal_target_ticks_change_nothing_witness :
  let st := {| fan_speed := 32; slow_down_interval_count := 1 |} in
  let raws := ["55000"; "60999"; "50000"] in
  let r := main_loop_from 20 3 decimal_int bmc_ok st raws [] in
  Forall (fun raw => target_of decimal_int raw = fan_speed st) raws /\
  Forall (fun s => s = st) (fst r) /\
  invocations (snd r) = [] /\
  entered (snd r) = [].
Proof.
  cbv zeta.
  assert (H : Forall (fun raw => target_of decimal_int raw = 32)
                ["55000"; "60999"; "50000"])
    by (repeat constructor).
  split; [exact H |].
  exact (equal_target_ticks_change_nothing 20 3 decimal_int bmc_ok
           {| fan_speed := 32; slow_down_interval_count := 1 |}
           ["55000"; "60999"; "50000"] [] H).
Defined.

(** The run of C6 on sensor texts. *)
Lemma speed_up_resets_countdown_witness :
  let raws := ["55000"; "40000"; "40000"; "63000";
               "40000"; "40000"; "40000"; "40000"] in
  let st := {| fan_speed := 32; slow_down_interval_count := 3 |} in
  let r := main_loop_from 20 3 decimal_int bmc_ok st raws [] in
  map (target_of decimal_int) raws = [32; 20; 20; 48; 20; 20; 20; 20] /\
  map fan_speed (fst r) = [32; 32; 32; 48; 48; 48; 48; 48] /\
  map slow_down_interval_count (fst r) = [3; 2; 1; 3; 2; 1; 0; -1] /\
  entered (snd r) = [48].
Proof.
  cbv zeta. split; [reflexivity |].
  destruct (proj2 (speed_up_resets_countdown 20 3 decimal_int bmc_ok)
              ["55000"; "40000"; "40000"; "63000";
               "40000"; "40000"; "40000"; "40000"] [])
    as (Hs & Hc & He & _); [reflexivity | reflexivity |].
  exact (conj Hs (conj Hc He)).
Defined.

(** The state after one hot reading. *)
Lemma slow_down_interval_count_range_witness :
  let st := {| fan_speed := 20; slow_down_interval_count := 3 |} in
  let r := loop_body 20 3 decimal_int bmc_ok st "70000" [] in
  0 <= 3 /\
  reachable 20 3 decimal_int bmc_ok (fst r) (snd r) /\
  -1 <= slow_down_interval_count (fst r) <= 3.
Proof.
  cbv zeta.
  assert (Hr : reachable 20 3 decimal_int bmc_ok
                 (fst (loop_body 20 3 decimal_int bmc_ok
                         (initial_state 20 3) "70000" []))
                 (snd (loop_body 20 3 decimal_int bmc_ok
                         (initial_state 20 3) "70000" []))).
  { apply reachable_tick, reachable_start. }
  assert (H0 : 0 <= 3) by lia.
  split; [exact H0 |]. split; [exact Hr |].
  exact (slow_down_interval_count_range 20 3 decimal_int bmc_ok _ _ H0 Hr).
Defined.

(** A default of 25, outside the curve, followed by one reading. *)
Lemma fan_speed_default_or_curve_witness :
  let r := loop_body 25 3 decimal_int bmc_ok (initial_state 25 3)
             "52000" [] in
  reachable 25 3 decimal_int bmc_ok (fst r) (snd r) /\
  (fan_speed (fst r) = 25 \/ In (fan_speed (fst r)) [20; 32; 48; 64]).
Proof.
  cbv zeta.
  assert (Hr : reachable 25 3 decimal_int bmc_ok
                 (fst (loop_body 25 3 decimal_int bmc_ok
                         (initial_state 25 3) "52000" []))
                 (snd (loop_body 25 3 decimal_int bmc_ok
                         (initial_state 25 3) "52000" []))).
  { apply reachable_tick, reachable_start. }
  split; [exact Hr |].
  exact (fan_speed_default_or_curve 25 3 decimal_int bmc_ok _ _ Hr).
Defined.

(** A reading of zero against a reading of one. *)
Lemma temp_fan_speed_curve_table_witness :
  temp_fan_speed_curve (Millideg 0) [] = (32, []) /\
  temp_fan_speed_curve (Millideg 1) [] = (20, []).
Proof.
  split.
  - apply (proj1 (proj2 (temp_fan_speed_curve_table 0 []))). left. lia.
  - apply (proj1 (temp_fan_speed_curve_table 1 [])). lia.
Defined.

(** Either side of the first band limit, and a reading below zero against
    the infinite one. *)
Lemma temp_fan_speed_curve_monotone_witness :
  0 < 49999 <= 50000 /\
  fst (temp_fan_speed_curve (Millideg 49999) [])
    <= fst (temp_fan_speed_curve (Millideg 50000) []) /\
  fst (temp_fan_speed_curve (Millideg (-5)) [])
    <= fst (temp_fan_speed_curve PosInf []).
Proof.
  assert (H : 0 < 49999 <= 50000) by lia.
  split; [exact H |].
  split.
  - exact (proj1 temp_fan_speed_curve_monotone 49999 50000 [] [] H).
  - exact (proj1 (proj2 temp_fan_speed_curve_monotone) (-5) [] []).
Defined.

(** A call with 48 on a BMC that obeys, default speed 20. *)
Lemma ipmitool_set_fan_speed_level_witness :
  In (set_fans_speed 48, Returned)
     (invocations (snd (ipmitool_set_fan_speed 20 bmc_ok 48 []))) /\
  (In (set_fans_speed 48, Returned) (invocations []) \/
   (48 <= MAX_FAN_SPEED /\
    (20 <= 48 <= MAX_FAN_SPEED -> 48 = 48) /\
    (48 > MAX_FAN_SPEED \/ 48 < 20 -> 48 = MAX_FAN_SPEED))).
Proof.
  assert (H : In (set_fans_speed 48, Returned)
                (invocations (snd (ipmitool_set_fan_speed 20 bmc_ok 48 []))))
    by (simpl; tauto).
  split; [exact H |].
  exact (ipmitool_set_fan_speed_level 20 bmc_ok 48 48 Returned [] H).
Defined.

(** From speed 48 with a countdown of 1: two lower readings wait, the third
    is applied. *)
Lemma slow_down_applied_after_countdown_witness :
  let st := {| fan_speed := 48; slow_down_interval_count := 1 |} in
  let raws := ["40000"; "55000"] in
  let r := main_loop_from 20 3 decimal_int bmc_ok st raws [] in
  let r' := loop_body 20 3 decimal_int bmc_ok (last (fst r) st) "40000"
              (snd r) in
  Forall (fun raw => target_of decimal_int raw < 48) raws /\
  Forall (fun s => fan_speed s = 48) (fst r) /\
  fst r' = {| fan_speed := 20; slow_down_interval_count := 3 |} /\
  entered (snd r') = [20].
Proof.
  cbv zeta.
  assert (Hlow : Forall (fun raw => target_of decimal_int raw < 48)
                   ["40000"; "55000"])
    by (repeat constructor).
  split; [exact Hlow |].
  destruct (slow_down_applied_after_countdown 20 3 decimal_int bmc_ok
              ["40000"; "55000"] "40000"
              {| fan_speed := 48; slow_down_interval_count := 1 |} [] Hlow)
    as (F & _ & _ & A); [reflexivity | simpl; lia |].
  split; [exact F |]. exact A.
Defined.

(** A speed-up from 20 to 48. *)
Lemma fan_speed_changes_only_when_applied_witness :
  let st := {| fan_speed := 20; slow_down_interval_count := 0 |} in
  let r := loop_body 20 3 decimal_int bmc_down st "63000" [] in
  fan_speed (fst r) <> 20 /\
  fan_speed (fst r) = 48 /\
  entered (snd r) = [48].
Proof.
  cbv zeta.
  assert (H : fan_speed
                (fst (loop_body 20 3 decimal_int bmc_down
                        {| fan_speed := 20; slow_down_interval_count := 0 |}
                        "63000" [])) <> 20)
    by (vm_compute; discriminate).
  split; [exact H |].
  destruct (fan_speed_changes_only_when_applied 20 3 decimal_int bmc_down
              {| fan_speed := 20; slow_down_interval_count := 0 |}
              "63000" [] H) as (A & B & _).
  split; [exact A | exact B].
Defined.

(** Two ticks on a BMC that hangs on the speed command; a speed command on
    its own is not a history of complete calls. *)
Lemma reachable_invocations_paired_witness :
  let r1 := loop_body 20 3 decimal_int bmc_hangs_on_set (initial_state 20 3)
              "52000" [] in
  let r2 := loop_body 20 3 decimal_int bmc_hangs_on_set (fst r1)
              "70000" (snd r1) in
  reachable 20 3 decimal_int bmc_hangs_on_set (fst r2) (snd r2) /\
  invocations (snd r2) =
    [(enable_manual_speed_set, Returned);
     (set_fans_speed 32, TimeoutExpired);
     (enable_manual_speed_set, Returned);
     (set_fans_speed 64, TimeoutExpired)] /\
  paired (invocations (snd r2)) /\
  ~ paired [(set_fans_speed 32, Returned)].
Proof.
  cbv zeta.
  assert (Hr : reachable 20 3 decimal_int bmc_hangs_on_set
                 (fst (loop_body 20 3 decimal_int bmc_hangs_on_set
                         (fst (loop_body 20 3 decimal_int bmc_hangs_on_set
                                 (initial_state 20 3) "52000" []))
                         "70000"
                         (snd (loop_body 20 3 decimal_int bmc_hangs_on_set
                                 (initial_state 20 3) "52000" []))))
                 (snd (loop_body 20 3 decimal_int bmc_hangs_on_set
                         (fst (loop_body 20 3 decimal_int bmc_hangs_on_set
                                 (initial_state 20 3) "52000" []))
                         "70000"
                         (snd (loop_body 20 3 decimal_int bmc_hangs_on_set
                                 (initial_state 20 3) "52000" []))))).
  { apply reachable_tick, reachable_tick, reachable_start. }
  split; [exact Hr |]. split; [reflexivity |].
  split.
  - exact (reachable_invocations_paired 20 3 decimal_int bmc_hangs_on_set
             _ _ Hr).
  - intros H. inversion H.
Defined.

(** An interval with a unit after the number. *)
Lemma load_config_none_iff_witness :
  env_bad_interval "INTERVAL" = Some "6s" /\
  decimal_int "6s" = None /\
  load_config decimal_int env_bad_interval = None.
Proof.
  split; [reflexivity |]. split; [reflexivity |].
  apply (proj2 (load_config_none_iff decimal_int env_bad_interval)).
  exists "INTERVAL", "6s". simpl. tauto.
Defined.

(** The empty environment. *)
Lemma load_config_defaults_witness :
  Forall (fun name => env_empty name = None)
    ["DEFAULT_FAN_SPEED"; "INTERVAL"; "SLOW_DOWN_INTERVAL_COUNT";
     "CMD_TIMEOUT"; "IPMI_USER"; "IPMI_PASSWD"; "IPMI_TOOL_PATH"] /\
  option_map cfg_IPMI_CMD (load_config decimal_int env_empty)
    = Some "ipmitool -U  -P  ".
Proof.
  assert (H : Forall (fun name => env_empty name = None)
                ["DEFAULT_FAN_SPEED"; "INTERVAL"; "SLOW_DOWN_INTERVAL_COUNT";
                 "CMD_TIMEOUT"; "IPMI_USER"; "IPMI_PASSWD"; "IPMI_TOOL_PATH"])
    by (repeat constructor).
  split; [exact H |].
  now rewrite (load_config_defaults decimal_int env_empty H).
Defined.

(** Root with two integer settings and the credentials set; anyone with a
    bad interval. *)
Lemma script_status_witness :
  script decimal_int env_site 0 =
    Enter_main_loop
      {| cfg_DEFAULT_FAN_SPEED := 32;
         cfg_INTERVAL := 6;
         cfg_SLOW_DOWN_INTERVAL_COUNT := 5;
         cfg_CMD_TIMEOUT := 3;
         cfg_IPMI_USER := "root";
         cfg_IPMI_PASSWD := "calvin";
         cfg_IPMI_TOOL_PATH := "ipmitool";
         cfg_IPMI_CMD := "ipmitool -U root -P calvin " |} /\
  script decimal_int env_bad_interval 1000 =
    Exit EINVAL log_failed_to_parse_config.
Proof.
  split.
  - apply (proj2 (proj2 (script_status decimal_int env_site 0))).
    split; reflexivity.
  - apply (proj1 (script_status decimal_int env_bad_interval 1000)).
    reflexivity.
Defined.

(** The line that sets speed 32 under the default prefix. *)
Lemma command_text_inj_witness :
  command_text "ipmitool -U  -P  " (set_fans_speed 32)
    = "ipmitool -U  -P   raw 0x30 0x30 0x02 0xff 0x32" /\
  set_fans_speed 32 = set_fans_speed 32.
Proof.
  split; [reflexivity |].
  apply (command_text_inj "ipmitool -U  -P  "). reflexivity.
Defined.

(** The same readings against a BMC that obeys and one that refuses. *)
Lemma main_loop_ignores_bmc_answers_witness :
  let raws := ["52000"; "70000"; "40000"] in
  let r1 := main_loop_from 20 3 decimal_int bmc_ok (initial_state 20 3)
              raws [] in
  let r2 := main_loop_from 20 3 decimal_int bmc_down (initial_state 20 3)
              raws [] in
  fst r1 = fst r2 /\
  entered (snd r1) = entered (snd r2) /\
  invocations (snd r1) <> invocations (snd r2).
Proof.
  cbv zeta.
  destruct (main_loop_ignores_bmc_answers 20 3 decimal_int bmc_ok bmc_down
              ["52000"; "70000"; "40000"] (initial_state 20 3) [] [])
    as [Hs He].
  split; [exact Hs |]. split; [exact (He eq_refl) |].
  vm_compute. discriminate.
Defined.
